(** * Verification of the aPMV setpoint generator of accim

    Shallow embedding of [src/accim/sim/apmv_setpoints_wip_4_4_testing.py]:
    the target resolver [_resolve_targets], the name sanitizer, the
    infrastructure ensurer, the EMS generators, the parameter table builder,
    the top-level [apply_apmv_setpoints] and the public helpers of the
    module; and [transform_ddmm_to_int] of [src/accim/utils.py].

    Modelling conventions.
    - Strings are Stdlib [string]s (byte strings); Python's [str.upper] and
      [str.strip] are modelled on their ASCII behaviour.
    - The eppy/besos building is an object store: a list of objects tagged
      with a unique identity, so that an object fetched once and mutated
      later (Python aliasing) is updated in place.  [idfobjects] is keyed by
      the upper-cased object type, as in eppy.
    - A Python [dict] keyed by strings is a stdpp [gmap string _] filled by a
      left fold of inserts (later keys overwrite earlier ones, as in a dict
      comprehension).
    - Numeric arguments that are only written into program text are kept as
      their rendered text. *)

From stdpp Require Import base list gmap strings pretty.
From Stdlib Require Import Ascii ZArith QArith.

Local Open Scope string_scope.

(* ------------------------------------------------------------------ *)
(** ** Python string helpers *)

Module Py.

(** [s.replace(a, b)] for one-character [a] and [b]. *)
Fixpoint replace_char (a b : ascii) (s : string) : string :=
  match s with
  | EmptyString => EmptyString
  | String c s' =>
      String (if Ascii.eqb c a then b else c) (replace_char a b s')
  end.

(** [str.upper] on ASCII letters. *)
Definition upper_char (c : ascii) : ascii :=
  let n := nat_of_ascii c in
  if (97 <=? n)%nat && (n <=? 122)%nat then ascii_of_nat (n - 32)%nat else c.

Fixpoint upper (s : string) : string :=
  match s with
  | EmptyString => EmptyString
  | String c s' => String (upper_char c) (upper s')
  end.

(** [str.isspace] on ASCII: tab, LF, VT, FF, CR, the separators 0x1c-0x1f
    and the space. *)
Definition isspace (c : ascii) : bool :=
  let n := nat_of_ascii c in
  ((9 <=? n)%nat && (n <=? 13)%nat) || ((28 <=? n)%nat && (n <=? 32)%nat).

Fixpoint lstrip (s : string) : string :=
  match s with
  | EmptyString => EmptyString
  | String c s' => if isspace c then lstrip s' else s
  end.

Definition rev_str (s : string) : string := String.rev s.

Definition rstrip (s : string) : string := rev_str (lstrip (rev_str s)).

Definition strip (s : string) : string := rstrip (lstrip s).

Definition lower_char (c : ascii) : ascii :=
  let n := nat_of_ascii c in
  if (65 <=? n)%nat && (n <=? 90)%nat then ascii_of_nat (n + 32)%nat else c.

Fixpoint lower (s : string) : string :=
  match s with
  | EmptyString => EmptyString
  | String c s' => String (lower_char c) (lower s')
  end.

(** [str.capitalize]: first character upper-cased, the rest lower-cased. *)
Definition capitalize (s : string) : string :=
  match s with
  | EmptyString => EmptyString
  | String c s' => String (upper_char c) (lower s')
  end.

Definition startswith (s p : string) : bool := String.prefix p s.

(** [x in xs] for a list of strings. *)
Definition in_list (x : string) (xs : list string) : bool :=
  existsb (String.eqb x) xs.

(** Truthiness of a Python list. *)
Definition truthy_list {A} (xs : list A) : bool :=
  match xs with [] => false | _ => true end.

(** Truthiness of a Python string. *)
Definition truthy (s : string) : bool :=
  match s with EmptyString => false | _ => true end.

End Py.

(** [_sanitize_ems_name]:
    [name.replace(' ', '_').replace(':', '_').replace('-', '_')]. *)
Definition _sanitize_ems_name (name : string) : string :=
  Py.replace_char "-" "_"
    (Py.replace_char ":" "_" (Py.replace_char " " "_" name)).

(* ------------------------------------------------------------------ *)
(** ** The building: an eppy object store *)

Record IdfObj := mkObj {
  obj_type : string;                   (** upper-cased IDD class name *)
  obj_fields : list (string * string)  (** fields the IDD defines, in order *)
}.

Record Building := mkBuilding {
  objs : list (nat * IdfObj);  (** identity, object; in insertion order *)
  next_id : nat
}.

(** [obj.Field] on a field the object's IDD class defines; [None] when the
    class has no such field (eppy raises). *)
Fixpoint field_opt (fs : list (string * string)) (f : string) : option string :=
  match fs with
  | [] => None
  | (k, v) :: fs' => if String.eqb k f then Some v else field_opt fs' f
  end.

(** [obj.Field] on a field the class defines: a blank field reads as [""]. *)
Definition get (o : IdfObj) (f : string) : string :=
  match field_opt (obj_fields o) f with Some v => v | None => "" end.

Fixpoint set_field (fs : list (string * string)) (f v : string)
  : list (string * string) :=
  match fs with
  | [] => [(f, v)]
  | (k, w) :: fs' =>
      if String.eqb k f then (k, v) :: fs' else (k, w) :: set_field fs' f v
  end.

(** [building.idfobjects[ty]], with identities. *)
Definition idfobjects_id (b : Building) (ty : string) : list (nat * IdfObj) :=
  List.filter (fun io => String.eqb (obj_type io.2) (Py.upper ty)) (objs b).

Definition idfobjects (b : Building) (ty : string) : list IdfObj :=
  map snd (idfobjects_id b ty).

(** [building.newidfobject(ty, **fields)]: appends the object and returns
    its identity. *)
Definition newidfobject (b : Building) (ty : string)
    (fs : list (string * string)) : Building * nat :=
  (mkBuilding (objs b ++ [(next_id b, mkObj (Py.upper ty) fs)]) (S (next_id b)),
   next_id b).

Definition newobj (b : Building) (ty : string) (fs : list (string * string))
  : Building := fst (newidfobject b ty fs).

(** [building.removeidfobject(o)]; [None] when the object is no longer in
    the building ([list.remove] raises). *)
Definition removeidfobject (b : Building) (id : nat) : option Building :=
  if existsb (fun io => Nat.eqb io.1 id) (objs b)
  then Some (mkBuilding (List.filter (fun io => negb (Nat.eqb io.1 id)) (objs b)) (next_id b))
  else None.

(** [o.Field = v] on the object of identity [id]. *)
Definition setattr (b : Building) (id : nat) (f v : string) : Building :=
  mkBuilding
    (map (fun io => if Nat.eqb io.1 id
                    then (io.1, mkObj (obj_type io.2) (set_field (obj_fields io.2) f v))
                    else io) (objs b))
    (next_id b).

(** Current value of the object of identity [id]. *)
Definition obj_by_id (b : Building) (id : nat) : option IdfObj :=
  (fun p => p.2.2) <$> list_find (fun io => io.1 = id) (objs b).

(* ------------------------------------------------------------------ *)
(** ** Target resolver: [_resolve_targets] *)

Record Target := mkTarget {
  df_key : string;
  ems_suffix : string;
  sensor_key : string;
  zone_name : string
}.

(** [{key(o): o for o in objs}]: a dict comprehension, later keys win. *)
Definition dict_of {A} (key : A -> string) (xs : list A) : gmap string A :=
  foldl (fun m x => <[key x := x]> m) ∅ xs.

(** Key of the three lookups: [obj.Name.upper().strip()]. *)
Definition name_key (o : IdfObj) : string := Py.strip (Py.upper (get o "Name")).

Definition zone_lists_of (b : Building) : gmap string IdfObj :=
  dict_of name_key (idfobjects b "ZONELIST").

Definition space_lists_of (b : Building) : gmap string IdfObj :=
  dict_of name_key (idfobjects b "SPACELIST").

(** [space_to_zone[s.Name.upper().strip()] = s.Zone_Name] in a loop. *)
Definition space_to_zone_of (b : Building) : gmap string string :=
  foldl (fun m s => <[name_key s := get s "Zone_Name"]> m) ∅ (idfobjects b "SPACE").

(** [get_items_from_list]: fields [<prefix>_<i>_Name] for [i] in
    [range(1, 500)], up to the first blank one. *)
Fixpoint take_truthy (vs : list string) : list string :=
  match vs with
  | [] => []
  | v :: vs' => if Py.truthy v then v :: take_truthy vs' else []
  end.

Definition get_items_from_list (o : IdfObj) (field_prefix : string) : list string :=
  take_truthy
    (map (fun i => get o (field_prefix +:+ "_" +:+ pretty i +:+ "_Name"))
         (seq 1 499)).

(** The container name of a People object: the first of the three
    version-dependent field names the object has.  [None] when it has none
    of them (the last [people.Zone_Name] raises out of the function). *)
Definition container_name (p : IdfObj) : option string :=
  match field_opt (obj_fields p) "Zone_or_ZoneList_Name" with
  | Some v => Some v
  | None =>
      match field_opt (obj_fields p) "Zone_or_ZoneList_or_Space_or_SpaceList_Name" with
      | Some v => Some v
      | None => field_opt (obj_fields p) "Zone_Name"
      end
  end.

Definition space_warning (s container : string) : string :=
  "Space '" +:+ s +:+ "' found in SpaceList '" +:+ container
    +:+ "' but not found in SPACE objects. Skipping.".

(** Priority 1, the loop over the members of a SpaceList: the targets and
    the warnings it emits, each in order. *)
Fixpoint spacelist_loop (space_to_zone : gmap string string)
    (container p_name : string) (ss : list string) : list Target * list string :=
  match ss with
  | [] => ([], [])
  | s :: ss' =>
      let '(ts, ws) := spacelist_loop space_to_zone container p_name ss' in
      match space_to_zone !! Py.strip (Py.upper s) with
      | Some parent_zone =>
          let full_key := s +:+ " " +:+ p_name in
          (mkTarget full_key (_sanitize_ems_name (s +:+ "_" +:+ p_name))
                    full_key parent_zone :: ts, ws)
      | None => (ts, space_warning s container :: ws)
      end
  end.

(** One iteration of the [for people in ...] loop, given the three lookups.
    [None] when the container field cannot be read. *)
Definition resolve_people (zone_lists space_lists : gmap string IdfObj)
    (space_to_zone : gmap string string) (people : IdfObj)
    : option (list Target * list string) :=
  match container_name people with
  | None => None
  | Some container =>
      if negb (Py.truthy container) then Some ([], []) else
      let p_name := get people "Name" in
      let c_name_upper := Py.strip (Py.upper container) in
      match space_lists !! c_name_upper with
      | Some sl_obj =>
          Some (spacelist_loop space_to_zone container p_name
                  (get_items_from_list sl_obj "Space"))
      | None =>
      match zone_lists !! c_name_upper with
      | Some zl_obj =>
          Some (map (fun z =>
                  let full_key := z +:+ " " +:+ p_name in
                  mkTarget full_key (_sanitize_ems_name (z +:+ "_" +:+ p_name))
                           full_key z)
                  (get_items_from_list zl_obj "Zone"), [])
      | None =>
      match space_to_zone !! c_name_upper with
      | Some parent_zone =>
          let full_key := container +:+ " " +:+ p_name in
          Some ([mkTarget full_key (_sanitize_ems_name (container +:+ "_" +:+ p_name))
                          full_key parent_zone], [])
      | None =>
          Some ([mkTarget container (_sanitize_ems_name container) p_name container], [])
      end end end
  end.

Fixpoint resolve_all (zone_lists space_lists : gmap string IdfObj)
    (space_to_zone : gmap string string) (ps : list IdfObj)
    : option (list Target * list string) :=
  match ps with
  | [] => Some ([], [])
  | p :: ps' =>
      match resolve_people zone_lists space_lists space_to_zone p,
            resolve_all zone_lists space_lists space_to_zone ps' with
      | Some (ts, ws), Some (ts', ws') => Some (app ts ts', app ws ws')
      | _, _ => None
      end
  end.

(** [_resolve_targets(building)]: the targets and the warnings raised;
    [None] when the function raises. *)
Definition _resolve_targets (b : Building) : option (list Target * list string) :=
  resolve_all (zone_lists_of b) (space_lists_of b) (space_to_zone_of b)
              (idfobjects b "PEOPLE").

(* ------------------------------------------------------------------ *)
(** ** EMS programs (Erl)

    The source writes each program as numbered text lines.  A line is kept
    here as a small syntax tree that renders to exactly that text; the same
    tree is given the meaning of the EMS interpreter, line by line. *)

Module Erl.

Inductive binop := Plus | Times | Divide | Less | Greater | GreaterEq | Equal
                 | AndAlso | OrElse.

Inductive expr :=
| EVar (x : string)
| ENum (z : Z)
| EParen (e : expr)
| EBin (op : binop) (spaced : bool) (a b : expr).

Inductive line :=
| LSet (x : string) (e : expr)
| LIf (c : expr)
| LElseIf (c : expr)
| LElse
| LEndIf.

Definition binop_text (op : binop) : string :=
  match op with
  | Plus => "+" | Times => "*" | Divide => "/" | Less => "<" | Greater => ">"
  | GreaterEq => ">=" | Equal => "==" | AndAlso => "&&" | OrElse => "||"
  end.

Fixpoint render_expr (e : expr) : string :=
  match e with
  | EVar x => x
  | ENum z => pretty z
  | EParen e => "(" +:+ render_expr e +:+ ")"
  | EBin op sp a b =>
      render_expr a
        +:+ (if sp then " " +:+ binop_text op +:+ " " else binop_text op)
        +:+ render_expr b
  end.

Definition render_line (l : line) : string :=
  match l with
  | LSet x e => "set " +:+ x +:+ " = " +:+ render_expr e
  | LIf c => "if " +:+ render_expr c
  | LElseIf c => "elseif " +:+ render_expr c
  | LElse => "else"
  | LEndIf => "endif"
  end.

(** Values of EMS variables; an unset variable reads as 0.  Division by
    zero yields 0 (Qdiv). *)
Definition env := string -> Q.

Definition upd (ρ : env) (x : string) (v : Q) : env :=
  fun y => if String.eqb y x then v else ρ y.

Definition of_bool (b : bool) : Q := if b then 1 else 0.

Definition truth (q : Q) : bool := negb (Qeq_bool q 0).

Fixpoint eval (ρ : env) (e : expr) : Q :=
  match e with
  | EVar x => ρ x
  | ENum z => inject_Z z
  | EParen e => eval ρ e
  | EBin op _ a b =>
      let va := eval ρ a in
      let vb := eval ρ b in
      match op with
      | Plus => va + vb
      | Times => va * vb
      | Divide => va / vb
      | Less => of_bool (negb (Qle_bool vb va))
      | Greater => of_bool (negb (Qle_bool va vb))
      | GreaterEq => of_bool (Qle_bool vb va)
      | Equal => of_bool (Qeq_bool va vb)
      | AndAlso => of_bool (truth va && truth vb)
      | OrElse => of_bool (truth va || truth vb)
      end
  end%Q.

(** An open [if] block: whether its enclosing code runs, whether one of its
    branches was already taken, whether the current branch runs. *)
Record frame := mkFrame { outer_on : bool; taken : bool; branch_on : bool }.

Definition running (st : list frame) : bool :=
  match st with [] => true | f :: _ => branch_on f end.

Definition step (ρst : env * list frame) (l : line) : env * list frame :=
  let '(ρ, st) := ρst in
  match l with
  | LSet x e => if running st then (upd ρ x (eval ρ e), st) else (ρ, st)
  | LIf c =>
      if running st then let v := truth (eval ρ c) in (ρ, mkFrame true v v :: st)
      else (ρ, mkFrame false true false :: st)
  | LElseIf c =>
      match st with
      | [] => (ρ, st)
      | f :: st' =>
          if outer_on f && negb (taken f) then
            let v := truth (eval ρ c) in (ρ, mkFrame true v v :: st')
          else (ρ, mkFrame (outer_on f) (taken f) false :: st')
      end
  | LElse =>
      match st with
      | [] => (ρ, st)
      | f :: st' =>
          (ρ, mkFrame (outer_on f) true (outer_on f && negb (taken f)) :: st')
      end
  | LEndIf => match st with [] => (ρ, st) | _ :: st' => (ρ, st') end
  end.

(** One run of a program. *)
Definition run (ls : list line) (ρ : env) : env := fst (foldl step (ρ, []) ls).

(** Whether a line assigns the variable [x]. *)
Definition sets (x : string) (l : line) : bool :=
  match l with LSet y _ => String.eqb y x | _ => false end.

End Erl.

Import Erl.

Definition V (x : string) : expr := EVar x.
Definition cmp (op : binop) (a b : expr) : expr := EBin op true a b.

(** [set_cooling_season], lines 1-13. *)
Definition set_cooling_season_lines : list line := [
  LIf (cmp Greater (V "CoolSeasonEnd") (V "CoolSeasonStart"));
  LIf (cmp AndAlso (EParen (cmp GreaterEq (V "DayOfYear") (V "CoolSeasonStart")))
                   (EParen (cmp Less (V "DayOfYear") (V "CoolSeasonEnd"))));
  LSet "CoolingSeason" (ENum 1);
  LElse; LSet "CoolingSeason" (ENum 0); LEndIf;
  LElseIf (cmp Greater (V "CoolSeasonStart") (V "CoolSeasonEnd"));
  LIf (cmp OrElse (EParen (cmp GreaterEq (V "DayOfYear") (V "CoolSeasonStart")))
                  (EParen (cmp Less (V "DayOfYear") (V "CoolSeasonEnd"))));
  LSet "CoolingSeason" (ENum 1);
  LElse; LSet "CoolingSeason" (ENum 0); LEndIf;
  LEndIf].

(** [x/(1+c*x)], the aPMV transform as the source writes it. *)
Definition apmv_transform (x c : string) : expr :=
  EBin Divide false (V x)
    (EParen (EBin Plus false (ENum 1) (EBin Times false (V c) (V x)))).

(** [apply_aPMV_<suffix>], lines 1-28. *)
Definition apply_aPMV_lines (s : string) : list line :=
  let act_h := "PMV_H_SP_act_" +:+ s in
  let act_c := "PMV_C_SP_act_" +:+ s in
  [ LIf (cmp Equal (V "CoolingSeason") (ENum 1));
    LSet ("adap_coeff_" +:+ s) (V ("adap_coeff_cooling_" +:+ s));
    LSet ("tolerance_cooling_sp_" +:+ s) (V ("tolerance_cooling_sp_cooling_season_" +:+ s));
    LSet ("tolerance_heating_sp_" +:+ s) (V ("tolerance_heating_sp_cooling_season_" +:+ s));
    LElseIf (cmp Equal (V "CoolingSeason") (ENum 0));
    LSet ("adap_coeff_" +:+ s) (V ("adap_coeff_heating_" +:+ s));
    LSet ("tolerance_cooling_sp_" +:+ s) (V ("tolerance_cooling_sp_heating_season_" +:+ s));
    LSet ("tolerance_heating_sp_" +:+ s) (V ("tolerance_heating_sp_heating_season_" +:+ s));
    LEndIf;
    LSet ("aPMV_H_SP_noTol_" +:+ s) (apmv_transform ("pmv_heating_sp_" +:+ s) ("adap_coeff_" +:+ s));
    LSet ("aPMV_C_SP_noTol_" +:+ s) (apmv_transform ("pmv_cooling_sp_" +:+ s) ("adap_coeff_" +:+ s));
    LSet ("aPMV_H_SP_" +:+ s) (EBin Plus false (V ("aPMV_H_SP_noTol_" +:+ s)) (V ("tolerance_heating_sp_" +:+ s)));
    LSet ("aPMV_C_SP_" +:+ s) (EBin Plus false (V ("aPMV_C_SP_noTol_" +:+ s)) (V ("tolerance_cooling_sp_" +:+ s)));
    LIf (cmp Greater (V ("People_Occupant_Count_" +:+ s)) (ENum 0));
    LIf (cmp Less (V ("aPMV_H_SP_" +:+ s)) (ENum 0));
    LSet act_h (V ("aPMV_H_SP_" +:+ s));
    LElse; LSet act_h (ENum 0); LEndIf;
    LIf (cmp Greater (V ("aPMV_C_SP_" +:+ s)) (ENum 0));
    LSet act_c (V ("aPMV_C_SP_" +:+ s));
    LElse; LSet act_c (ENum 0); LEndIf;
    LElse;
    LSet act_h (ENum (-100)); LSet act_c (ENum 100);
    LEndIf ].

(** [monitor_aPMV_<suffix>]. *)
Definition monitor_aPMV_lines (s : string) : list line :=
  [ LSet ("aPMV_" +:+ s) (apmv_transform ("PMV_" +:+ s) ("adap_coeff_" +:+ s)) ].

Definition per_step (x : string) : expr := EBin Times false (ENum 1) (V x).

(** [count_aPMV_comfort_hours_<suffix>], lines 1-19. *)
Definition count_aPMV_comfort_hours_lines (s : string) : list line :=
  [ LIf (cmp Less (V ("aPMV_" +:+ s)) (V ("aPMV_H_SP_noTol_" +:+ s)));
    LSet ("comfhour_" +:+ s) (ENum 0);
    LSet ("discomfhour_cold_" +:+ s) (per_step "ZoneTimeStep");
    LSet ("discomfhour_heat_" +:+ s) (ENum 0);
    LElseIf (cmp Greater (V ("aPMV_" +:+ s)) (V ("aPMV_C_SP_noTol_" +:+ s)));
    LSet ("comfhour_" +:+ s) (ENum 0);
    LSet ("discomfhour_cold_" +:+ s) (ENum 0);
    LSet ("discomfhour_heat_" +:+ s) (per_step "ZoneTimeStep");
    LElse;
    LSet ("comfhour_" +:+ s) (per_step "ZoneTimeStep");
    LSet ("discomfhour_cold_" +:+ s) (ENum 0);
    LSet ("discomfhour_heat_" +:+ s) (ENum 0);
    LEndIf;
    LIf (cmp Greater (V ("People_Occupant_Count_" +:+ s)) (ENum 0));
    LSet ("occupied_hour_" +:+ s) (per_step "ZoneTimeStep");
    LElse; LSet ("occupied_hour_" +:+ s) (ENum 0); LEndIf;
    LSet ("discomfhour_" +:+ s)
         (cmp Plus (V ("discomfhour_cold_" +:+ s)) (V ("discomfhour_heat_" +:+ s))) ].

(* ------------------------------------------------------------------ *)
(** ** Infrastructure: [_ensure_infrastructure] *)

Definition FANGER : string := "ThermostatSetpoint:ThermalComfort:Fanger:DualSetpoint".

Definition compact_schedule_fields (name value : string) : list (string * string) :=
  [("Name", name); ("Schedule_Type_Limits_Name", "Any Number");
   ("Field_1", "Through: 12/31"); ("Field_2", "For: AllDays");
   ("Field_3", "Until: 24:00," +:+ value)].

Definition schedule_names (b : Building) : list string :=
  map (fun o => get o "Name") (idfobjects b "Schedule:Compact").

(** Step 1 of [_ensure_infrastructure]: the [PMV_H_SP_<zone>] and
    [PMV_C_SP_<zone>] schedules, checked against the schedule names read
    once before the loops. *)
Definition ensure_schedules (b : Building) (unique_zones : list string) : Building :=
  let sch_comp_objs := schedule_names b in
  foldl (fun b i =>
    foldl (fun b zone =>
      let sch_name := i +:+ "_" +:+ zone in
      if Py.in_list sch_name sch_comp_objs then b
      else newobj b "Schedule:Compact" (compact_schedule_fields sch_name "1"))
      b unique_zones)
    b ["PMV_H_SP"; "PMV_C_SP"].

(** [_update_fanger_object]. *)
Definition _update_fanger_object (b : Building) (obj_name zone : string) : Building :=
  let '(b, fid) :=
    match List.find (fun io => String.eqb (get io.2 "Name") obj_name)
                    (idfobjects_id b FANGER) with
    | Some io => (b, io.1)
    | None => newidfobject b FANGER [("Name", obj_name)]
    end in
  let b := setattr b fid "Fanger_Thermal_Comfort_Heating_Schedule_Name" ("PMV_H_SP_" +:+ zone) in
  setattr b fid "Fanger_Thermal_Comfort_Cooling_Schedule_Name" ("PMV_C_SP_" +:+ zone).

(** [_create_tc_thermostat]. *)
Definition _create_tc_thermostat (b : Building) (zone : string) : Building :=
  let sch_name := "Thermal Comfort Control Type Schedule Name " +:+ zone in
  let b := if Py.in_list sch_name (schedule_names b) then b
           else newobj b "Schedule:Compact" (compact_schedule_fields sch_name "4") in
  let b := newobj b "ZoneControl:Thermostat:ThermalComfort"
             [("Name", "Thermostat Setpoint Dual Setpoint " +:+ zone);
              ("Zone_or_ZoneList_Name", zone);
              ("Thermal_Comfort_Control_Type_Schedule_Name", sch_name);
              ("Thermal_Comfort_Control_1_Object_Type", FANGER);
              ("Thermal_Comfort_Control_1_Name", "Fanger Setpoint " +:+ zone)] in
  _update_fanger_object b ("Fanger Setpoint " +:+ zone) zone.

(** [{t.Zone_or_ZoneList_Name.upper(): t for t in building.idfobjects[ty]}],
    holding the identities of the objects. *)
Definition thermostats_by_zone (b : Building) (ty : string) : gmap string nat :=
  foldl (fun m io => <[Py.upper (get io.2 "Zone_or_ZoneList_Name") := io.1]> m)
        ∅ (idfobjects_id b ty).

(** One iteration of the thermostat loop of [_ensure_infrastructure]. *)
Definition ensure_thermostat (existing_thermostats existing_tc_thermostats : gmap string nat)
    (b : Building) (zone : string) : option Building :=
  let z_upper := Py.upper zone in
  match existing_thermostats !! z_upper, existing_tc_thermostats !! z_upper with
  | None, None => Some (_create_tc_thermostat b zone)
  | Some old_t, None =>
      b ← removeidfobject b old_t; Some (_create_tc_thermostat b zone)
  | _, Some tc_t =>
      o ← obj_by_id b tc_t;
      let b :=
        if String.eqb (get o "Thermal_Comfort_Control_1_Object_Type") FANGER then b
        else setattr (setattr b tc_t "Thermal_Comfort_Control_1_Object_Type" FANGER)
                     tc_t "Thermal_Comfort_Control_1_Name" ("Fanger Setpoint " +:+ zone) in
      Some (_update_fanger_object b ("Fanger Setpoint " +:+ zone) zone)
  end.

Fixpoint foldM {A} (f : Building -> A -> option Building) (b : Building) (xs : list A)
  : option Building :=
  match xs with
  | [] => Some b
  | x :: xs' => b' ← f b x; foldM f b' xs'
  end.

(** [_ensure_infrastructure]; [None] when it raises. *)
Definition _ensure_infrastructure (b : Building) (unique_zones : list string)
  : option Building :=
  let b := ensure_schedules b unique_zones in
  let existing_thermostats := thermostats_by_zone b "ZoneControl:Thermostat" in
  let existing_tc_thermostats := thermostats_by_zone b "ZoneControl:Thermostat:ThermalComfort" in
  foldM (ensure_thermostat existing_thermostats existing_tc_thermostats) b unique_zones.

(* ------------------------------------------------------------------ *)
(** ** Sensors, global variables, actuators *)

Definition names_of (b : Building) (ty f : string) : list string :=
  map (fun o => get o f) (idfobjects b ty).

(** [_add_apmv_sensors]: the loop [for i in range(len(suffixes))] reads
    [sensor_keys[i]] only when it creates a sensor; [None] when that index
    is out of range ([IndexError]). *)
Definition _add_apmv_sensors (b : Building) (sensor_keys suffixes : list string)
  : option Building :=
  let sensornamelist := names_of b "EnergyManagementSystem:Sensor" "Name" in
  foldM (fun b '(i, s) =>
    b ← (if Py.in_list ("PMV_" +:+ s) sensornamelist then Some b
         else sk ← sensor_keys !! i;
              Some (newobj b "EnergyManagementSystem:Sensor"
                      [("Name", "PMV_" +:+ s);
                       ("OutputVariable_or_OutputMeter_Index_Key_Name", sk);
                       ("OutputVariable_or_OutputMeter_Name", "Zone Thermal Comfort Fanger Model PMV")]));
    if Py.in_list ("People_Occupant_Count_" +:+ s) sensornamelist then Some b
    else sk ← sensor_keys !! i;
         Some (newobj b "EnergyManagementSystem:Sensor"
                 [("Name", "People_Occupant_Count_" +:+ s);
                  ("OutputVariable_or_OutputMeter_Index_Key_Name", sk);
                  ("OutputVariable_or_OutputMeter_Name", "People Occupant Count")]))
    b (combine (seq 0 (length suffixes)) suffixes).

Definition gv_prefixes : list string :=
  ["tolerance_cooling_sp"; "tolerance_cooling_sp_cooling_season"; "tolerance_cooling_sp_heating_season";
   "tolerance_heating_sp"; "tolerance_heating_sp_cooling_season"; "tolerance_heating_sp_heating_season";
   "adap_coeff"; "adap_coeff_heating"; "adap_coeff_cooling";
   "pmv_heating_sp"; "pmv_cooling_sp"; "aPMV";
   "comfhour"; "discomfhour"; "discomfhour_heat"; "discomfhour_cold"; "occupied_hour";
   "aPMV_H_SP"; "aPMV_C_SP"; "aPMV_H_SP_noTol"; "aPMV_C_SP_noTol"].

Definition new_gv (existing : list string) (b : Building) (gv : string) : Building :=
  if Py.in_list gv existing then b
  else newobj b "EnergyManagementSystem:GlobalVariable" [("Erl_Variable_1_Name", gv)].

Definition _add_apmv_global_variables (b : Building) (suffixes : list string) : Building :=
  let existing := names_of b "EnergyManagementSystem:GlobalVariable" "Erl_Variable_1_Name" in
  let b := foldl (new_gv existing) b ["CoolingSeason"; "CoolSeasonEnd"; "CoolSeasonStart"] in
  foldl (fun b prefix =>
    foldl (fun b suffix => new_gv existing b (prefix +:+ "_" +:+ suffix)) b suffixes)
    b gv_prefixes.

Definition _add_apmv_actuators (b : Building) (target_data : list Target) : Building :=
  let actuatornamelist := names_of b "EnergyManagementSystem:Actuator" "Name" in
  foldl (fun b target =>
    foldl (fun b i =>
      let act_name := "PMV_" +:+ i +:+ "_SP_act_" +:+ ems_suffix target in
      let sch_name := "PMV_" +:+ i +:+ "_SP_" +:+ zone_name target in
      if Py.in_list act_name actuatornamelist then b
      else newobj b "EnergyManagementSystem:Actuator"
             [("Name", act_name); ("Actuated_Component_Unique_Name", sch_name);
              ("Actuated_Component_Type", "Schedule:Compact");
              ("Actuated_Component_Control_Type", "Schedule Value")])
      b ["H"; "C"])
    b target_data.

(* ------------------------------------------------------------------ *)
(** ** Parameter table: [generate_df_from_args] *)

(** A tunable argument: a scalar, or a dict keyed by target key (keys
    distinct, in insertion order). *)
Inductive Arg (A : Type) :=
| ArgScalar (v : A)
| ArgDict (d : list (string * A)).
Arguments ArgScalar {A} v.
Arguments ArgDict {A} d.

(** [warnings.warn(f"Keys dropped from {arg_name}: {dropped}")]. *)
Record Warning := WDropped { w_arg : string; w_keys : list string }.

(** [dict.get(k, default)]. *)
Definition dict_get {A} (d : list (string * A)) (k : string) (dflt : A) : A :=
  match List.find (fun kv => String.eqb kv.1 k) d with
  | Some kv => kv.2
  | None => dflt
  end.

(** The keys of a dict filled by [for k in keys: data[k] = ...]: first
    occurrences, in order. *)
Fixpoint dedup_keys (seen : list string) (ks : list string) : list string :=
  match ks with
  | [] => []
  | k :: ks' =>
      if Py.in_list k seen then dedup_keys seen ks'
      else k :: dedup_keys (k :: seen) ks'
  end.

(** [process_arg]: the Series as a list of (key, value), and the warnings. *)
Definition process_arg {A} (space_ppl_names : list string) (arg_val : Arg A)
    (arg_name : string) (default_val : A) : list (string * A) * list Warning :=
  match arg_val with
  | ArgDict d =>
      let dropped := List.filter (fun k => negb (Py.in_list k space_ppl_names)) (map fst d) in
      (map (fun k => (k, dict_get d k default_val)) (dedup_keys [] space_ppl_names),
       if Py.truthy_list dropped then [WDropped arg_name dropped] else [])
  | ArgScalar v =>
      (map (fun k => (k, v)) (dedup_keys [] space_ppl_names), [])
  end.

(** The eight columns, in the order of [series_list]. *)
Definition df_columns : list string :=
  ["adap_coeff_cooling"; "adap_coeff_heating"; "pmv_cooling_sp"; "pmv_heating_sp";
   "tolerance_cooling_sp_cooling_season"; "tolerance_cooling_sp_heating_season";
   "tolerance_heating_sp_cooling_season"; "tolerance_heating_sp_heating_season"].

(** A row of [df_arguments]: its index, the eight column values (in
    [df_columns] order) and [underscore_zonename] ([None] for NaN). *)
Record Row (A : Type) := mkRow {
  row_key : string;
  row_vals : list A;
  row_suffix : option string
}.
Arguments mkRow {A} row_key row_vals row_suffix.
Arguments row_key {A} r.
Arguments row_vals {A} r.
Arguments row_suffix {A} r.

(** [generate_df_from_args]: [args] are the eight (argument, default) pairs
    in [df_columns] order.  [pd.concat(series_list, axis=1)] aligns the
    Series on their common index: the row of key [k] holds each Series's
    entry at [k]. *)
Definition generate_df_from_args {A} (target_keys_input ems_suffixes : list string)
    (args : list (Arg A * A)) : list (Row A) * list Warning :=
  let space_ppl_names := target_keys_input in
  let series_list :=
    zip_with (fun arg_name ad => (process_arg space_ppl_names ad.1 arg_name ad.2, ad.2))
             df_columns args in
  let suffix_map : gmap string string :=
    foldl (fun m ks => <[ks.1 := ks.2]> m) ∅ (zip target_keys_input ems_suffixes) in
  (map (fun k => mkRow k (map (fun sd => dict_get sd.1.1 k sd.2) series_list)
                         (suffix_map !! k))
       (dedup_keys [] space_ppl_names),
   mjoin (map (fun sd => sd.1.2) series_list)).

(* ------------------------------------------------------------------ *)
(** ** Programs, calling managers, outputs *)

Definition program_fields (name : string) (lines : list string) : list (string * string) :=
  ("Name", name) :: imap (fun i l => ("Program_Line_" +:+ pretty (S i), l)) lines.

Definition new_program (b : Building) (name : string) (lines : list string) : Building :=
  newobj b "EnergyManagementSystem:Program" (program_fields name lines).

(** [set_zone_input_data_<suffix>], from the row's eight values. *)
Definition set_zone_input_data_lines (s : string) (vals : list string) : list string :=
  zip_with (fun col v => "set " +:+ col +:+ "_" +:+ s +:+ " = " +:+ v) df_columns vals.

Definition _add_apmv_programs (b : Building) (suffixes : list string)
    (df_arguments : list (Row string)) (cool_start cool_end : Z) : Building :=
  let programlist := names_of b "EnergyManagementSystem:Program" "Name" in
  let b := if Py.in_list "set_cooling_season_input_data" programlist then b
           else new_program b "set_cooling_season_input_data"
                  ["set CoolSeasonStart = " +:+ pretty cool_start;
                   "set CoolSeasonEnd = " +:+ pretty cool_end] in
  let b := if Py.in_list "set_cooling_season" programlist then b
           else new_program b "set_cooling_season" (map render_line set_cooling_season_lines) in
  foldl (fun b suffix =>
    match List.find (fun r => bool_decide (row_suffix r = Some suffix)) df_arguments with
    | None => b
    | Some row =>
        let b := if Py.in_list ("set_zone_input_data_" +:+ suffix) programlist then b
                 else new_program b ("set_zone_input_data_" +:+ suffix)
                        (set_zone_input_data_lines suffix (row_vals row)) in
        let b := if Py.in_list ("apply_aPMV_" +:+ suffix) programlist then b
                 else new_program b ("apply_aPMV_" +:+ suffix)
                        (map render_line (apply_aPMV_lines suffix)) in
        let b := if Py.in_list ("monitor_aPMV_" +:+ suffix) programlist then b
                 else new_program b ("monitor_aPMV_" +:+ suffix)
                        (map render_line (monitor_aPMV_lines suffix)) in
        if Py.in_list ("count_aPMV_comfort_hours_" +:+ suffix) programlist then b
        else new_program b ("count_aPMV_comfort_hours_" +:+ suffix)
               (map render_line (count_aPMV_comfort_hours_lines suffix))
    end) b suffixes.

Definition _add_apmv_program_calling_managers (b : Building) : Building :=
  let programlist := names_of b "EnergyManagementSystem:Program" "Name" in
  let pcmlist := names_of b "EnergyManagementSystem:ProgramCallingManager" "Name" in
  foldl (fun b prog =>
    if Py.in_list prog pcmlist then b
    else newobj b "EnergyManagementSystem:ProgramCallingManager"
           [("Name", prog); ("EnergyPlus_Model_Calling_Point", "BeginTimestepBeforePredictor");
            ("Program_Name_1", prog)])
    b programlist.

(** [EMSOutputVariableZone_dict], in its insertion order. *)
Definition ems_output_variables : list (string * (string * string * string)) :=
  [("Adaptive Coefficient", ("adap_coeff", "", "Averaged"));
   ("aPMV", ("aPMV", "", "Averaged"));
   ("aPMV Heating Setpoint", ("aPMV_H_SP", "", "Averaged"));
   ("aPMV Cooling Setpoint", ("aPMV_C_SP", "", "Averaged"));
   ("aPMV Heating Setpoint No Tolerance", ("aPMV_H_SP_noTol", "", "Averaged"));
   ("aPMV Cooling Setpoint No Tolerance", ("aPMV_C_SP_noTol", "", "Averaged"));
   ("Comfortable Hours", ("comfhour", "H", "Summed"));
   ("Discomfortable Hot Hours", ("discomfhour_heat", "H", "Summed"));
   ("Discomfortable Cold Hours", ("discomfhour_cold", "H", "Summed"));
   ("Discomfortable Total Hours", ("discomfhour", "H", "Summed"));
   ("Occupied hours", ("occupied_hour", "H", "Summed"))].

Definition additional_outputs : list string :=
  ["Zone Operative Temperature"; "Zone Thermal Comfort Fanger Model PMV";
   "Zone Thermal Comfort Fanger Model PPD"; "Zone Mean Air Temperature"].

Definition output_variable (key var freq : string) : list (string * string) :=
  [("Key_Value", key); ("Variable_Name", var); ("Reporting_Frequency", freq)].

(** One iteration of [for freq in outputs_freq]. *)
Definition outputs_for_freq (other_PMV_related_outputs : bool) (unique_zones : list string)
    (b : Building) (freq : string) : Building :=
  let f := Py.capitalize freq in
  let current_outputs :=
    map (fun o => get o "Variable_Name")
        (List.filter (fun o => String.eqb (get o "Reporting_Frequency") f)
                (idfobjects b "Output:Variable")) in
  let b := foldl (fun b outvar =>
             if negb (Py.in_list outvar current_outputs) && negb (Py.startswith outvar "WIP")
             then newobj b "Output:Variable" (output_variable "*" outvar f)
             else b)
           b (names_of b "EnergyManagementSystem:OutputVariable" "Name") in
  let b := foldl (fun b i =>
             foldl (fun b zone =>
               newobj b "Output:Variable" (output_variable (i +:+ "_" +:+ zone) "Schedule Value" f))
               b unique_zones)
           b ["PMV_H_SP"; "PMV_C_SP"] in
  if other_PMV_related_outputs then
    foldl (fun b item =>
      if Py.in_list item current_outputs then b
      else newobj b "Output:Variable" (output_variable "*" item f))
      b additional_outputs
  else b.

Definition _add_apmv_outputs (b : Building) (outputs_freq : list string)
    (other_PMV_related_outputs : bool) (suffixes unique_zones : list string) : Building :=
  let outputvariablelist := names_of b "EnergyManagementSystem:OutputVariable" "Name" in
  let b := foldl (fun b kv =>
             let '(key, (v0, v1, v2)) := kv in
             foldl (fun b suffix =>
               if Py.in_list (key +:+ "_" +:+ suffix) outputvariablelist then b
               else newobj b "EnergyManagementSystem:OutputVariable"
                      [("Name", key +:+ "_" +:+ suffix);
                       ("EMS_Variable_Name", v0 +:+ "_" +:+ suffix);
                       ("Type_of_Data_in_Variable", v2);
                       ("Update_Frequency", "ZoneTimestep"); ("Units", v1)])
               b suffixes)
           b ems_output_variables in
  let b := foldl (outputs_for_freq other_PMV_related_outputs unique_zones) b outputs_freq in
  match idfobjects_id b "OutputControl:Files" with
  | [] => newobj b "OutputControl:Files"
            [("Output_CSV", "Yes"); ("Output_MTR", "Yes"); ("Output_ESO", "Yes")]
  | (oc, _) :: _ =>
      setattr (setattr (setattr b oc "Output_CSV" "Yes") oc "Output_MTR" "Yes") oc "Output_ESO" "Yes"
  end.

(* ------------------------------------------------------------------ *)
(** ** [apply_apmv_setpoints] *)

(** The arguments of [apply_apmv_setpoints].  Tunable values are kept as
    the text they are written as into the programs; the season bounds are
    the integer days of year (the [dd/mm] string form is converted by
    [transform_ddmm_to_int] before use; that conversion is modelled on its
    own below). *)
Record ApmvArgs := mkArgs {
  outputs_freq : list string;
  other_PMV_related_outputs : bool;
  tunables : list (Arg string * string);  (** (argument, dflt_for_...) in [df_columns] order *)
  cooling_season_start : Z;
  cooling_season_end : Z
}.

(** [list(set(xs))]: Python leaves the order of a set unspecified; this
    model takes the order of first occurrence. *)
Definition unique (xs : list string) : list string := dedup_keys [] xs.

(** [apply_apmv_setpoints]; [None] when it raises. *)
Definition apply_apmv_setpoints (b : Building) (a : ApmvArgs) : option Building :=
  '(target_data, _) ← _resolve_targets b;
  let ems_target_suffixes := map ems_suffix target_data in
  let ems_sensor_keys := map sensor_key target_data in
  let df_keys := map df_key target_data in
  let unique_zones := unique (map zone_name target_data) in
  b ← _ensure_infrastructure b unique_zones;
  let df_arguments := fst (generate_df_from_args df_keys ems_target_suffixes (tunables a)) in
  b ← _add_apmv_sensors b ems_sensor_keys ems_target_suffixes;
  let b := _add_apmv_global_variables b ems_target_suffixes in
  let b := _add_apmv_actuators b target_data in
  let b := _add_apmv_programs b ems_target_suffixes df_arguments
             (cooling_season_start a) (cooling_season_end a) in
  let b := _add_apmv_program_calling_managers b in
  Some (_add_apmv_outputs b (outputs_freq a) (other_PMV_related_outputs a)
          ems_target_suffixes unique_zones).

(* ------------------------------------------------------------------ *)
(** ** Public helpers: target names, input template, occupancy, coefficients *)

(** [get_available_target_names]; [None] when [_resolve_targets] raises. *)
Definition get_available_target_names (b : Building) : option (list string) :=
  (fun tw => map df_key tw.1) <$> _resolve_targets b.

(** [{key: "replace-me-with-float-value" for key in keys}], as the dict's
    entries in iteration order (first occurrence of each key). *)
Definition template_of (keys : list string) : list (string * string) :=
  map (fun key => (key, "replace-me-with-float-value")) (dedup_keys [] keys).

(** [get_input_template_dictionary]. *)
Definition get_input_template_dictionary (b : Building) : option (list (string * string)) :=
  template_of <$> get_available_target_names b.

(** [set_zones_always_occupied]: the [On] schedule, then every People
    object pointed at it. *)
Definition set_zones_always_occupied (b : Building) : Building :=
  let sch_comp_objs := map (fun o => get o "Name") (idfobjects b "schedule:compact") in
  let b := if Py.in_list "On" sch_comp_objs then b
           else newobj b "Schedule:Compact" (compact_schedule_fields "On" "1") in
  foldl (fun b io => setattr b io.1 "Number_of_People_Schedule_Name" "On")
        b (idfobjects_id b "people").

(** [sub in s] for strings. *)
Fixpoint str_contains (sub s : string) : bool :=
  String.prefix sub s ||
  match s with EmptyString => false | String _ s' => str_contains sub s' end.

(** [change_adaptive_coeff]: for each row, the first EMS program whose name
    contains [set_zone_input_data] and, case-insensitively, the row's
    [underscore_zonename] gets its first two lines rewritten.  [None] when a
    row's [underscore_zonename] is NaN ([float] has no [lower]) and the
    comprehension reaches [zonename.lower()], that is when some program name
    contains [set_zone_input_data] ([and] does not evaluate its right side
    otherwise). *)
Definition change_adaptive_coeff (b : Building) (df_arguments : list (Row string))
  : option Building :=
  foldM (fun b row =>
    match row_suffix row with
    | None =>
        if existsb (fun io => str_contains "set_zone_input_data" (get io.2 "Name"))
                   (idfobjects_id b "EnergyManagementSystem:Program")
        then None else Some b
    | Some zonename =>
        let program :=
          List.filter (fun io =>
              str_contains "set_zone_input_data" (get io.2 "Name") &&
              str_contains (Py.lower zonename) (Py.lower (get io.2 "Name")))
            (idfobjects_id b "EnergyManagementSystem:Program") in
        match program with
        | [] => Some b
        | (pid, _) :: _ =>
            let b := setattr b pid "Program_Line_1"
                       ("set adap_coeff_cooling_" +:+ zonename +:+ " = "
                          +:+ default "" (row_vals row !! 0%nat)) in
            Some (setattr b pid "Program_Line_2"
                    ("set adap_coeff_heating_" +:+ zonename +:+ " = "
                       +:+ default "" (row_vals row !! 1%nat)))
        end
    end) b df_arguments.

(* ------------------------------------------------------------------ *)
(** ** [accim.utils.transform_ddmm_to_int] *)

(** [str.split(sep)] for a one-character separator. *)
Fixpoint split_on (sep : ascii) (s : string) : list string :=
  match s with
  | EmptyString => [""]
  | String c s' =>
      if Ascii.eqb c sep then "" :: split_on sep s'
      else match split_on sep s' with
           | w :: ws => String c w :: ws
           | [] => [String c ""]
           end
  end.

Definition digit_val (c : ascii) : option Z :=
  let n := nat_of_ascii c in
  if (48 <=? n)%nat && (n <=? 57)%nat then Some (Z.of_nat (n - 48)) else None.

(** Decimal digits with single underscores between them. *)
Fixpoint parse_digits (acc : Z) (prev_us : bool) (s : string) : option Z :=
  match s with
  | EmptyString => if prev_us then None else Some acc
  | String c s' =>
      if Ascii.eqb c "_" then (if prev_us then None else parse_digits acc true s')
      else match digit_val c with
           | Some d => parse_digits (10 * acc + d) false s'
           | None => None
           end
  end.

(** [int(s)] on ASCII text: surrounding whitespace, an optional sign, then
    decimal digits (underscores allowed between digits); [None] where
    Python raises [ValueError]. *)
Definition py_int (s : string) : option Z :=
  let t := Py.strip s in
  let '(sgn, body) :=
    match t with
    | String "-" r => ((-1)%Z, r)
    | String "+" r => (1%Z, r)
    | _ => (1%Z, t)
    end in
  match body with
  | String c _ =>
      match digit_val c with
      | Some _ => (fun v => sgn * v)%Z <$> parse_digits 0 false body
      | None => None
      end
  | EmptyString => None
  end.

(** The month lengths of 2007, not a leap year. *)
Definition days_in_month_2007 (m : Z) : Z :=
  match m with 2 => 28 | 4 | 6 | 9 | 11 => 30 | _ => 31 end%Z.

Definition days_before_month_2007 (m : Z) : Z :=
  fold_right Z.add 0%Z
    (map (fun k => days_in_month_2007 (Z.of_nat k)) (seq 1 (Z.to_nat (m - 1)))).

(** [date(2007, m, d).timetuple().tm_yday]; [None] where [date] raises. *)
Definition date_yday_2007 (m d : Z) : option Z :=
  if (1 <=? m)%Z && (m <=? 12)%Z && (1 <=? d)%Z && (d <=? days_in_month_2007 m)%Z
  then Some (days_before_month_2007 m + d)%Z
  else None.

(** [transform_ddmm_to_int]; [None] where it raises. *)
Definition transform_ddmm_to_int (string_date : string) : option Z :=
  num_date ← mapM py_int (split_on "/" string_date);
  match num_date with
  | d :: m :: _ => date_yday_2007 m d
  | _ => None
  end.

(* ------------------------------------------------------------------ *)
(** ** Concrete models used by the checks below *)

(** A building holding the given objects, with identities 0, 1, ... *)
Definition of_objs (os : list IdfObj) : Building :=
  mkBuilding (zip (seq 0 (length os)) os) (length os).

(** Two People objects assigned directly to the same zone. *)
Definition two_people_one_zone : Building := of_objs [
  mkObj "ZONE" [("Name", "Z1")];
  mkObj "PEOPLE" [("Name", "P1"); ("Zone_or_ZoneList_Name", "Z1")];
  mkObj "PEOPLE" [("Name", "P2"); ("Zone_or_ZoneList_Name", "Z1")]].

(** One zone "Z1" and one People object in it (the old field name). *)
Definition one_zone_building : Building := of_objs [
  mkObj "ZONE" [("Name", "Z1")];
  mkObj "PEOPLE" [("Name", "P"); ("Zone_or_ZoneList_Name", "Z1")]].

(** The defaults of [apply_apmv_setpoints]. *)
Definition default_args : ApmvArgs :=
  mkArgs ["hourly"] true
    [(ArgScalar "0.293", "0.4"); (ArgScalar "-0.293", "-0.4");
     (ArgScalar "-0.5", "0.5"); (ArgScalar "0.5", "-0.5");
     (ArgScalar "-0.1", "-0.1"); (ArgScalar "-0.1", "-0.1");
     (ArgScalar "0.1", "0.1"); (ArgScalar "0.1", "0.1")]
    120 210.

(** A People object whose container names no Zone of the model. *)
Definition unknown_container : Building := of_objs [
  mkObj "PEOPLE" [("Name", "P"); ("Zone_or_ZoneList_Name", "Nowhere")]].

(** A ZoneList whose members name no Zone of the model. *)
Definition zonelist_unknown_zones : Building := of_objs [
  mkObj "ZONELIST" [("Name", "ZL"); ("Zone_1_Name", "A"); ("Zone_2_Name", "B")];
  mkObj "PEOPLE" [("Name", "P"); ("Zone_or_ZoneList_Name", "ZL")]].

(** The model of the space-list-to-zone chaining example. *)
Definition spacelist_building : Building := of_objs [
  mkObj "SPACELIST" [("Name", "SL"); ("Space_1_Name", "S1")];
  mkObj "SPACE" [("Name", "S1"); ("Zone_Name", "Z9")];
  mkObj "PEOPLE" [("Name", "Q"); ("Zone_or_ZoneList_or_Space_or_SpaceList_Name", "SL")]].

(** The building without its objects of type [ty]. *)
Definition drop_type (b : Building) (ty : string) : Building :=
  mkBuilding (List.filter (fun io => negb (String.eqb (obj_type io.2) (Py.upper ty))) (objs b))
             (next_id b).

(** An environment of the EMS interpreter given by a list of bindings. *)
Definition env_of (bs : list (string * Q)) : env :=
  foldl (fun ρ xv => upd ρ xv.1 xv.2) (fun _ => 0%Q) bs.

(** The cooling-season flag computed by [set_cooling_season] for the season
    bounds [st], [en] and the day of year [d], from a flag initially 0. *)
Definition season_flag (st en d : Z) : Q :=
  run set_cooling_season_lines
    (env_of [("CoolSeasonStart", inject_Z st); ("CoolSeasonEnd", inject_Z en);
             ("DayOfYear", inject_Z d)]) "CoolingSeason".

(** [aPMV_C_SP_noTol_S] after one run of [apply_aPMV_S] in the cooling
    season, for the base cooling setpoint [x] and coefficient [c]. *)
Definition apmv_cooling_no_tol (x c : Q) : Q :=
  run (apply_aPMV_lines "S")
    (env_of [("CoolingSeason", 1%Q); ("pmv_cooling_sp_S", x); ("adap_coeff_cooling_S", c)])
    "aPMV_C_SP_noTol_S".

(* ------------------------------------------------------------------ *)
(** ** Auxiliary definitions for the properties *)

Definition suffix_of_key (t : Target) : Prop :=
  ems_suffix t = _sanitize_ems_name (df_key t).

Definition schedule_value_outputs (b : Building) : nat :=
  length (List.filter (fun o => String.eqb (get o "Variable_Name") "Schedule Value")
                 (idfobjects b "Output:Variable")).

Definition space_target (p_name s parent_zone : string) : Target :=
  mkTarget (s +:+ " " +:+ p_name) (_sanitize_ems_name (s +:+ "_" +:+ p_name))
           (s +:+ " " +:+ p_name) parent_zone.

Definition unmapped (stz : gmap string string) (s : string) : bool :=
  match stz !! Py.strip (Py.upper s) with Some _ => false | None => true end.

(** The resolution of one People object in the building [b]. *)
Definition resolve_one (b : Building) (p : IdfObj) : option (list Target * list string) :=
  resolve_people (zone_lists_of b) (space_lists_of b) (space_to_zone_of b) p.

(** A SpaceList whose second member has no Space. *)
Definition spacelist_with_missing_space : Building := of_objs [
  mkObj "SPACELIST" [("Name", "SL"); ("Space_1_Name", "S1"); ("Space_2_Name", "S2")];
  mkObj "SPACE" [("Name", "S1"); ("Zone_Name", "Z9")];
  mkObj "PEOPLE" [("Name", "Q"); ("Zone_or_ZoneList_or_Space_or_SpaceList_Name", "sl ")]].

(** The parameter table for targets ["A"] and ["B"] when
    [adap_coeff_cooling] is the mapping [{"A": 0.3}] (default 0.4) and the
    other seven fields are scalars. *)
Definition missing_key_table : list (Row Q) * list Warning :=
  generate_df_from_args ["A"; "B"] ["A"; "B"]
    ((ArgDict [("A", 3#10)], 4#10) :: repeat (ArgScalar 1, 0) 7)%Q.

Definition schedule_obj (name : string) : IdfObj :=
  mkObj (Py.upper "Schedule:Compact") (compact_schedule_fields name "1").

(** [Field_3] of the first [Schedule:Compact] named [name], if any. *)
Definition schedule_field3 (b : Building) (name : string) : option string :=
  (fun o => get o "Field_3") <$>
    List.find (fun o => String.eqb (get o "Name") name) (idfobjects b "Schedule:Compact").

(* ------------------------------------------------------------------ *)
(** ** Auxiliary definitions for the further properties *)

(** The character [_sanitize_ems_name] puts in place of [c]. *)
Definition sanitize_char (c : ascii) : ascii :=
  if Ascii.eqb c " " || Ascii.eqb c ":" || Ascii.eqb c "-" then "_"%char else c.

(** The [dd/mm] text of day [n] of 2007, inverse of [transform_ddmm_to_int]. *)
Definition ddmm_of_yday (n : Z) : string :=
  let m := default 12%Z (List.find (fun m => (n <=? days_before_month_2007 (m + 1))%Z)
                                   (map Z.of_nat (seq 1 12))) in
  pretty (n - days_before_month_2007 m)%Z +:+ "/" +:+ pretty m.

(** A building holding one [set_zone_input_data_Z1] program. *)
Definition zone_input_program_building : Building := of_objs [
  mkObj "ENERGYMANAGEMENTSYSTEM:PROGRAM"
    [("Name", "set_zone_input_data_Z1");
     ("Program_Line_1", "set adap_coeff_cooling_Z1 = 0.293");
     ("Program_Line_2", "set adap_coeff_heating_Z1 = -0.293")]].

(** [b'] is [b] with objects appended, all of a type satisfying [T]. *)
Definition grows_by (T : string -> bool) (b b' : Building) : Prop :=
  exists extra, objs b' = (objs b ++ extra)%list /\
    Forall (fun io : nat * IdfObj => T (obj_type io.2) = true) extra.

(** The object types the loops of [_add_apmv_outputs] create. *)
Definition output_types (t : string) : bool :=
  String.eqb t "OUTPUT:VARIABLE" || String.eqb t "ENERGYMANAGEMENTSYSTEM:OUTPUTVARIABLE".

(** [b'] is [b] with objects appended. *)
Definition extends (b b' : Building) : Prop := exists extra, objs b' = (objs b ++ extra)%list.

(** The global variables [_add_apmv_global_variables] declares, in order. *)
Definition gv_names (suffixes : list string) : list string :=
  (["CoolingSeason"; "CoolSeasonEnd"; "CoolSeasonStart"] ++
   flat_map (fun prefix => map (fun suffix => prefix +:+ "_" +:+ suffix) suffixes) gv_prefixes)%list.

(** The object types the generators create. *)
Definition GV : string := "EnergyManagementSystem:GlobalVariable".

Definition SENSOR : string := "EnergyManagementSystem:Sensor".

(** One iteration of the loop of [_add_apmv_sensors]. *)
Definition sensor_step (sensornamelist : list string) (b : Building) (x : string * string) : Building :=
  let '(sk, s) := x in
  let b := if Py.in_list ("PMV_" +:+ s) sensornamelist then b
           else newobj b "EnergyManagementSystem:Sensor"
                  [("Name", "PMV_" +:+ s);
                   ("OutputVariable_or_OutputMeter_Index_Key_Name", sk);
                   ("OutputVariable_or_OutputMeter_Name", "Zone Thermal Comfort Fanger Model PMV")] in
  if Py.in_list ("People_Occupant_Count_" +:+ s) sensornamelist then b
  else newobj b "EnergyManagementSystem:Sensor"
         [("Name", "People_Occupant_Count_" +:+ s);
          ("OutputVariable_or_OutputMeter_Index_Key_Name", sk);
          ("OutputVariable_or_OutputMeter_Name", "People Occupant Count")].

(** The body of the loop of [_add_apmv_sensors], at index [i]. *)
Definition sensor_opt_step (sensornamelist sensor_keys : list string) (b : Building)
    (x : nat * string) : option Building :=
  let '(i, s) := x in
  b ← (if Py.in_list ("PMV_" +:+ s) sensornamelist then Some b
       else sk ← sensor_keys !! i;
            Some (newobj b "EnergyManagementSystem:Sensor"
                    [("Name", "PMV_" +:+ s);
                     ("OutputVariable_or_OutputMeter_Index_Key_Name", sk);
                     ("OutputVariable_or_OutputMeter_Name", "Zone Thermal Comfort Fanger Model PMV")]));
  if Py.in_list ("People_Occupant_Count_" +:+ s) sensornamelist then Some b
  else sk ← sensor_keys !! i;
       Some (newobj b "EnergyManagementSystem:Sensor"
               [("Name", "People_Occupant_Count_" +:+ s);
                ("OutputVariable_or_OutputMeter_Index_Key_Name", sk);
                ("OutputVariable_or_OutputMeter_Name", "People Occupant Count")]).

(** The key and suffix an iteration reads, once the index is known to be
    in range. *)
Definition sensor_key_at (sensor_keys : list string) (x : nat * string) : string * string :=
  (default "" (sensor_keys !! x.1), x.2).

(** The sensor names an iteration checks and creates. *)
Definition sensor_names (x : string * string) : list string :=
  ["PMV_" +:+ x.2; "People_Occupant_Count_" +:+ x.2].

Definition ACTUATOR : string := "EnergyManagementSystem:Actuator".

(** One iteration of the inner loop of [_add_apmv_actuators]. *)
Definition actuator_step (actuatornamelist : list string) (b : Building) (ti : Target * string) : Building :=
  let '(target, i) := ti in
  let act_name := "PMV_" +:+ i +:+ "_SP_act_" +:+ ems_suffix target in
  let sch_name := "PMV_" +:+ i +:+ "_SP_" +:+ zone_name target in
  if Py.in_list act_name actuatornamelist then b
  else newobj b "EnergyManagementSystem:Actuator"
         [("Name", act_name); ("Actuated_Component_Unique_Name", sch_name);
          ("Actuated_Component_Type", "Schedule:Compact");
          ("Actuated_Component_Control_Type", "Schedule Value")].

(** The actuator name an iteration checks and creates. *)
Definition actuator_names (ti : Target * string) : list string :=
  ["PMV_" +:+ ti.2 +:+ "_SP_act_" +:+ ems_suffix ti.1].

(** The (target, [H]/[C]) pairs of the two nested loops. *)
Definition actuator_items (target_data : list Target) : list (Target * string) :=
  flat_map (fun t => map (pair t) ["H"; "C"]) target_data.

Definition PROGRAM : string := "EnergyManagementSystem:Program".
Definition PCM : string := "EnergyManagementSystem:ProgramCallingManager".

(** One iteration of the loop of [_add_apmv_program_calling_managers]. *)
Definition pcm_step (pcmlist : list string) (b : Building) (prog : string) : Building :=
  if Py.in_list prog pcmlist then b
  else newobj b "EnergyManagementSystem:ProgramCallingManager"
         [("Name", prog); ("EnergyPlus_Model_Calling_Point", "BeginTimestepBeforePredictor");
          ("Program_Name_1", prog)].

(** [if name not in programlist: building.newidfobject('EnergyManagementSystem:Program', Name=name, ...)]. *)
Definition guard_program (programlist : list string) (b : Building) (name : string) (lines : list string) : Building :=
  if Py.in_list name programlist then b else new_program b name lines.

(** The iterations of [_add_apmv_programs]: the two season programs, then
    one per suffix. *)
Inductive program_item := PInputData | PSeason | PSuffix (suffix : string).

(** One iteration of [_add_apmv_programs]; for a suffix, the body of its loop. *)
Definition programs_step (df_arguments : list (Row string)) (cool_start cool_end : Z)
    (programlist : list string) (b : Building) (it : program_item) : Building :=
  match it with
  | PInputData =>
      guard_program programlist b "set_cooling_season_input_data"
        ["set CoolSeasonStart = " +:+ pretty cool_start; "set CoolSeasonEnd = " +:+ pretty cool_end]
  | PSeason =>
      guard_program programlist b "set_cooling_season" (map render_line set_cooling_season_lines)
  | PSuffix suffix =>
      match List.find (fun r => bool_decide (row_suffix r = Some suffix)) df_arguments with
      | None => b
      | Some row =>
          let b := guard_program programlist b ("set_zone_input_data_" +:+ suffix)
                     (set_zone_input_data_lines suffix (row_vals row)) in
          let b := guard_program programlist b ("apply_aPMV_" +:+ suffix)
                     (map render_line (apply_aPMV_lines suffix)) in
          let b := guard_program programlist b ("monitor_aPMV_" +:+ suffix)
                     (map render_line (monitor_aPMV_lines suffix)) in
          guard_program programlist b ("count_aPMV_comfort_hours_" +:+ suffix)
            (map render_line (count_aPMV_comfort_hours_lines suffix))
      end
  end.

(** The program names an iteration checks and creates. *)
Definition program_item_names (df_arguments : list (Row string)) (it : program_item) : list string :=
  match it with
  | PInputData => ["set_cooling_season_input_data"]
  | PSeason => ["set_cooling_season"]
  | PSuffix suffix =>
      match List.find (fun r => bool_decide (row_suffix r = Some suffix)) df_arguments with
      | None => []
      | Some _ => ["set_zone_input_data_" +:+ suffix; "apply_aPMV_" +:+ suffix;
                   "monitor_aPMV_" +:+ suffix; "count_aPMV_comfort_hours_" +:+ suffix]
      end
  end.

(** The identities of the objects of a building. *)
Definition ids (b : Building) : list nat := map fst (objs b).

(** Distinct object identities, all below the next one handed out. *)
Definition wf_ids (b : Building) : Prop :=
  List.NoDup (ids b) /\ Forall (fun i => (i < next_id b)%nat) (ids b).

(** [b'] keeps the identities of [b] distinct and fresh, and drops none. *)
Definition safe (b b' : Building) : Prop := wf_ids b -> wf_ids b' /\ incl (ids b) (ids b').

(** A zone with a standard thermostat and a zone without any. *)
Definition thermostat_building : Building := of_objs [
  mkObj "ZONE" [("Name", "Z1")];
  mkObj "ZONE" [("Name", "Z2")];
  mkObj "ZONECONTROL:THERMOSTAT" [("Name", "T1"); ("Zone_or_ZoneList_Name", "Z1")]].

(** The setpoint schedule names of [_ensure_infrastructure]:
    [PMV_H_SP_<zone>] and [PMV_C_SP_<zone>]. *)
Definition pmv_setpoint_name (n : string) : bool :=
  Py.startswith n "PMV_H_SP_" || Py.startswith n "PMV_C_SP_".

(** The setpoint schedules of a model, by [Name] and value field [Field_3],
    in order. *)
Definition pmv_schedules (b : Building) : list (string * string) :=
  map (fun o => (get o "Name", get o "Field_3"))
      (List.filter (fun o => pmv_setpoint_name (get o "Name"))
                   (idfobjects b "Schedule:Compact")).

Definition is_pmv_sched (o : IdfObj) : bool :=
  String.eqb (obj_type o) (Py.upper "Schedule:Compact") && pmv_setpoint_name (get o "Name").

(** No object whose identity satisfies [R] is a setpoint schedule. *)
Definition pmv_free (R : nat -> Prop) (b : Building) : Prop :=
  forall io, In io (objs b) -> R io.1 -> is_pmv_sched io.2 = false.

(** [b'] has the setpoint schedules of [b], when no object of an identity
    in [R] is one. *)
Definition keeps_pmv (R : nat -> Prop) (b b' : Building) : Prop :=
  pmv_free R b -> pmv_free R b' /\ pmv_schedules b' = pmv_schedules b.

(* ================================================================== *)
(** * Properties *)

(* ------------------------------------------------------------------ *)
(** ** Sanitizer and target keys *)

Lemma replace_char_app (a c : ascii) (s1 s2 : string) :
  Py.replace_char a c (s1 +:+ s2) = Py.replace_char a c s1 +:+ Py.replace_char a c s2.
Proof. induction s1 as [|x s1 IH]; simpl; [reflexivity | now rewrite IH]. Qed.

Lemma sanitize_app (s1 s2 : string) :
  _sanitize_ems_name (s1 +:+ s2) = _sanitize_ems_name s1 +:+ _sanitize_ems_name s2.
Proof. unfold _sanitize_ems_name. now rewrite !replace_char_app. Qed.

(** Joining with ["_"] or with [" "] sanitizes to the same identifier. *)
Lemma sanitize_join (s p : string) :
  _sanitize_ems_name (s +:+ "_" +:+ p) = _sanitize_ems_name (s +:+ " " +:+ p).
Proof. rewrite !sanitize_app. reflexivity. Qed.

Lemma spacelist_loop_suffix stz c pn ss :
  Forall suffix_of_key (fst (spacelist_loop stz c pn ss)).
Proof.
  induction ss as [|s ss IH]; simpl; [constructor|].
  destruct (spacelist_loop stz c pn ss) as [ts ws]; simpl in *.
  destruct (stz !! Py.strip (Py.upper s)); simpl; [|exact IH].
  constructor; [apply sanitize_join | exact IH].
Qed.

Lemma resolve_people_suffix zl sl stz p ts ws :
  resolve_people zl sl stz p = Some (ts, ws) -> Forall suffix_of_key ts.
Proof.
  unfold resolve_people.
  destruct (container_name p) as [c|]; [|discriminate].
  destruct (negb (Py.truthy c)); [intros [= <- _]; constructor|].
  destruct (sl !! _) as [so|].
  { intros [= E]. pose proof (spacelist_loop_suffix stz c (get p "Name")
      (get_items_from_list so "Space")) as H. rewrite E in H. exact H. }
  destruct (zl !! _) as [zo|].
  { intros [= <- _]. apply Forall_forall. intros t Ht.
    apply list_elem_of_fmap in Ht as [z [-> _]]. apply sanitize_join. }
  destruct (stz !! _); intros [= <- _]; (constructor; [|constructor]).
  - apply sanitize_join.
  - reflexivity.
Qed.

Lemma resolve_all_suffix zl sl stz ps ts ws :
  resolve_all zl sl stz ps = Some (ts, ws) -> Forall suffix_of_key ts.
Proof.
  revert ts ws. induction ps as [|p ps IH]; simpl; intros ts ws.
  - intros [= <- _]. constructor.
  - destruct (resolve_people zl sl stz p) as [[ts1 ws1]|] eqn:E1; [|discriminate].
    destruct (resolve_all zl sl stz ps) as [[ts2 ws2]|] eqn:E2; [|discriminate].
    intros [= <- _]. apply Forall_app. split.
    + exact (resolve_people_suffix _ _ _ _ _ _ E1).
    + exact (IH _ _ eq_refl).
Qed.

(** C1 (amended): every target's [ems_suffix] is the sanitized [df_key];
    so the suffixes are pairwise distinct exactly when the sanitized keys
    are, which the resolver does not ensure. *)
Theorem resolve_targets_suffix_is_sanitized_key (b : Building) ts ws :
  _resolve_targets b = Some (ts, ws) ->
  map ems_suffix ts = map (fun t => _sanitize_ems_name (df_key t)) ts /\
  (NoDup (map ems_suffix ts) <-> NoDup (map (fun t => _sanitize_ems_name (df_key t)) ts)).
Proof.
  intros H. apply resolve_all_suffix in H.
  assert (E : map ems_suffix ts = map (fun t => _sanitize_ems_name (df_key t)) ts).
  { induction H as [|t ts Ht _ IH]; simpl; [reflexivity|]. now rewrite Ht, IH. }
  split; [exact E | now rewrite E].
Qed.

Lemma resolve_targets_suffix_is_sanitized_key_witness :
  _resolve_targets two_people_one_zone =
    Some ([mkTarget "Z1" "Z1" "P1" "Z1"; mkTarget "Z1" "Z1" "P2" "Z1"], []) /\
  map ems_suffix [mkTarget "Z1" "Z1" "P1" "Z1"; mkTarget "Z1" "Z1" "P2" "Z1"] =
    map (fun t => _sanitize_ems_name (df_key t))
        [mkTarget "Z1" "Z1" "P1" "Z1"; mkTarget "Z1" "Z1" "P2" "Z1"].
Proof.
  assert (E : _resolve_targets two_people_one_zone =
    Some ([mkTarget "Z1" "Z1" "P1" "Z1"; mkTarget "Z1" "Z1" "P2" "Z1"], [])) by reflexivity.
  split; [exact E|].
  exact (proj1 (resolve_targets_suffix_is_sanitized_key _ _ _ E)).
Defined.

(** C1 (counterexample): two People objects assigned directly to zone "Z1"
    both get the [ems_suffix] "Z1". *)
Lemma resolve_targets_suffix_collision :
  ~ (forall b ts ws, _resolve_targets b = Some (ts, ws) -> NoDup (map ems_suffix ts)).
Proof.
  intros H.
  assert (E : _resolve_targets two_people_one_zone =
    Some ([mkTarget "Z1" "Z1" "P1" "Z1"; mkTarget "Z1" "Z1" "P2" "Z1"], [])) by reflexivity.
  specialize (H _ _ _ E). simpl in H.
  apply NoDup_cons in H as [Hn _]. apply Hn. left.
Qed.

(* ------------------------------------------------------------------ *)
(** ** Re-running the augmentation *)

(** C2 (failing input): on a model with one zone and one People object,
    with the default arguments, a second run of [apply_apmv_setpoints] adds
    two objects: the "Schedule Value" output requests of the zone's two
    setpoint schedules, created by [_add_apmv_outputs] without an existence
    check, are requested a second time. *)
Theorem apply_twice_duplicates_schedule_outputs :
  let once := apply_apmv_setpoints one_zone_building default_args in
  let twice := once ≫= fun b => apply_apmv_setpoints b default_args in
  (fun b => length (objs b)) <$> once = Some 76%nat /\
  (fun b => length (objs b)) <$> twice = Some 78%nat /\
  schedule_value_outputs <$> once = Some 2%nat /\
  schedule_value_outputs <$> twice = Some 4%nat.
Proof. vm_compute. repeat split. Qed.

(* ------------------------------------------------------------------ *)
(** ** Owning zones *)

Lemma filter_filter_implied {A} (P Q : A -> bool) (l : list A) :
  (forall x, P x = true -> Q x = true) -> List.filter P (List.filter Q l) = List.filter P l.
Proof.
  intros HPQ. induction l as [|x l IH]; [reflexivity|]. simpl.
  destruct (Q x) eqn:Hq; simpl; destruct (P x) eqn:Hp; rewrite ?IH; try reflexivity.
  rewrite (HPQ x Hp) in Hq. discriminate.
Qed.

Lemma idfobjects_drop_type (b : Building) (ty ty' : string) :
  String.eqb (Py.upper ty) (Py.upper ty') = false ->
  idfobjects (drop_type b ty') ty = idfobjects b ty.
Proof.
  intros Hne. unfold idfobjects, idfobjects_id, drop_type; simpl. f_equal.
  apply filter_filter_implied. intros [i o]; simpl. intros Ht.
  apply String.eqb_eq in Ht. rewrite Ht, Hne. reflexivity.
Qed.

Lemma resolve_all_incl zl sl stz ps p ts ws TS WS :
  In p ps -> resolve_people zl sl stz p = Some (ts, ws) ->
  resolve_all zl sl stz ps = Some (TS, WS) -> incl ts TS /\ incl ws WS.
Proof.
  revert TS WS. induction ps as [|q ps IH]; intros TS WS Hin Hp Hall; [destruct Hin|].
  simpl in Hall.
  destruct (resolve_people zl sl stz q) as [[tq wq]|] eqn:Eq; [|discriminate].
  destruct (resolve_all zl sl stz ps) as [[ts' ws']|] eqn:Eall; [|discriminate].
  injection Hall as <- <-.
  destruct Hin as [->|Hin].
  - rewrite Hp in Eq. injection Eq as <- <-. split; apply incl_appl, incl_refl.
  - destruct (IH ts' ws' Hin Hp eq_refl) as [H1 H2]. split; apply incl_appr; assumption.
Qed.

(** C3 (amended): [_resolve_targets] never reads the Zone objects of the
    model: its result, targets, warnings and failure alike, is the same
    once every Zone object is removed.  A People container found as a
    ZoneList (and not as a SpaceList) yields one Target per member, whose
    [zone_name] is the raw member name, and no warning; a container found
    in none of the SpaceLists, ZoneLists and Spaces yields one Target whose
    [zone_name] is the raw container name, and no warning.  Neither case
    checks that a Zone of that name exists, and these targets and warnings
    are part of the resolver's result. *)
Theorem resolve_targets_ignores_zones (b : Building) :
  _resolve_targets (drop_type b "Zone") = _resolve_targets b /\
  (forall p c, container_name p = Some c -> c <> "" ->
     let k := Py.strip (Py.upper c) in
     space_lists_of b !! k = None ->
     (forall zl, zone_lists_of b !! k = Some zl ->
        exists ts, resolve_one b p = Some (ts, []) /\
          map zone_name ts = get_items_from_list zl "Zone") /\
     (zone_lists_of b !! k = None -> space_to_zone_of b !! k = None ->
        exists t, resolve_one b p = Some ([t], []) /\ zone_name t = c)) /\
  (forall p ts ws TS WS, In p (idfobjects b "PEOPLE") -> resolve_one b p = Some (ts, ws) ->
     _resolve_targets b = Some (TS, WS) -> incl ts TS /\ incl ws WS).
Proof.
  split; [|split].
  - unfold _resolve_targets, zone_lists_of, space_lists_of, space_to_zone_of.
    rewrite !idfobjects_drop_type by reflexivity. reflexivity.
  - intros p c Hc Hne k Hsl.
    assert (Ht : Py.truthy c = true) by (destruct c; [congruence | reflexivity]).
    unfold resolve_one, resolve_people. rewrite Hc, Ht. simpl negb. cbv iota.
    fold k. rewrite Hsl. split.
    + intros zl Hzl. rewrite Hzl. eexists. split; [reflexivity|].
      rewrite map_map. cbn [zone_name]. apply map_id.
    + intros Hzl Hstz. rewrite Hzl, Hstz. eexists. split; reflexivity.
  - intros p ts ws TS WS Hin Hp Hall. exact (resolve_all_incl _ _ _ _ _ _ _ _ _ Hin Hp Hall).
Qed.

Lemma resolve_targets_ignores_zones_witness :
  container_name (mkObj "PEOPLE" [("Name", "P"); ("Zone_or_ZoneList_Name", "Nowhere")])
    = Some "Nowhere" /\
  (exists t, resolve_one unknown_container
               (mkObj "PEOPLE" [("Name", "P"); ("Zone_or_ZoneList_Name", "Nowhere")])
             = Some ([t], []) /\ zone_name t = "Nowhere") /\
  idfobjects zonelist_unknown_zones "Zone" = [] /\
  (exists ts, resolve_one zonelist_unknown_zones
                (mkObj "PEOPLE" [("Name", "P"); ("Zone_or_ZoneList_Name", "ZL")])
              = Some (ts, []) /\ map zone_name ts = ["A"; "B"]).
Proof.
  assert (Hc : container_name (mkObj "PEOPLE" [("Name", "P"); ("Zone_or_ZoneList_Name", "Nowhere")])
                 = Some "Nowhere") by reflexivity.
  assert (Hc' : container_name (mkObj "PEOPLE" [("Name", "P"); ("Zone_or_ZoneList_Name", "ZL")])
                 = Some "ZL") by reflexivity.
  split; [exact Hc|]. split.
  - exact (proj2 (proj1 (proj2 (resolve_targets_ignores_zones unknown_container)) _ "Nowhere" Hc
             ltac:(discriminate) eq_refl) eq_refl eq_refl).
  - split; [reflexivity|].
    destruct (proj1 (proj1 (proj2 (resolve_targets_ignores_zones zonelist_unknown_zones)) _ "ZL" Hc'
                ltac:(discriminate) eq_refl) _ eq_refl) as [ts [E H]].
    exists ts. split; [exact E|]. rewrite H. reflexivity.
Defined.

(** C3 (counterexample): a People object assigned to "Nowhere", in a model
    without any Zone, yields a Target with [zone_name] "Nowhere" and no
    error or warning. *)
Lemma resolve_targets_unknown_zone_emitted :
  idfobjects unknown_container "Zone" = [] /\
  _resolve_targets unknown_container =
    Some ([mkTarget "Nowhere" "Nowhere" "P" "Nowhere"], []) /\
  ~ (forall b ts ws t, _resolve_targets b = Some (ts, ws) -> t ∈ ts ->
       exists z, z ∈ idfobjects b "Zone" /\ Py.upper (get z "Name") = Py.upper (zone_name t)).
Proof.
  assert (Hz : idfobjects unknown_container "Zone" = []) by reflexivity.
  assert (E : _resolve_targets unknown_container =
    Some ([mkTarget "Nowhere" "Nowhere" "P" "Nowhere"], [])) by reflexivity.
  split; [exact Hz|]. split; [exact E|].
  intros H. destruct (H _ _ _ _ E (list_elem_of_here _ _)) as [z [Hin _]].
  rewrite Hz in Hin. apply not_elem_of_nil in Hin. exact Hin.
Qed.

(* ------------------------------------------------------------------ *)
(** ** Resolution order *)

(** The SpaceList loop: one target per member with a Space, one warning
    per member without. *)
Lemma spacelist_loop_spec stz c pn ss :
  spacelist_loop stz c pn ss =
    (omap (fun s => space_target pn s <$> stz !! Py.strip (Py.upper s)) ss,
     map (fun s => space_warning s c) (List.filter (unmapped stz) ss)).
Proof.
  induction ss as [|s ss IH]; [reflexivity|]. simpl. rewrite IH.
  unfold unmapped. destruct (stz !! Py.strip (Py.upper s)); reflexivity.
Qed.

Lemma resolve_all_app zl sl stz ps1 ps2 :
  resolve_all zl sl stz (ps1 ++ ps2) =
    match resolve_all zl sl stz ps1, resolve_all zl sl stz ps2 with
    | Some (ts, ws), Some (ts', ws') => Some (app ts ts', app ws ws')
    | _, _ => None
    end.
Proof.
  induction ps1 as [|p ps1 IH]; simpl.
  - destruct (resolve_all zl sl stz ps2) as [[ts ws]|]; reflexivity.
  - rewrite IH.
    destruct (resolve_people zl sl stz p) as [[t0 w0]|];
    destruct (resolve_all zl sl stz ps1) as [[t1 w1]|];
    destruct (resolve_all zl sl stz ps2) as [[t2 w2]|]; try reflexivity.
    now rewrite !app_assoc.
Qed.

(** C4: the container of each People object is looked up, by its
    upper-cased and stripped name, first among the SpaceLists, then the
    ZoneLists, then the Spaces; only the first category found produces
    targets, and a name found in none is still emitted as a Zone target
    keyed by the container name, with the People name as sensor key.
    [_resolve_targets] is the concatenation of these per-People results. *)
Theorem resolve_priority (b : Building) (p : IdfObj) (c : string) :
  container_name p = Some c -> c <> "" ->
  let k := Py.strip (Py.upper c) in
  let pn := get p "Name" in
  (forall sl, space_lists_of b !! k = Some sl ->
     exists ts ws, resolve_one b p = Some (ts, ws) /\
       forall t, t ∈ ts -> exists s, s ∈ get_items_from_list sl "Space" /\
         df_key t = s +:+ " " +:+ pn /\ sensor_key t = df_key t /\
         space_to_zone_of b !! Py.strip (Py.upper s) = Some (zone_name t)) /\
  (space_lists_of b !! k = None -> forall zl, zone_lists_of b !! k = Some zl ->
     resolve_one b p =
       Some (map (fun z => mkTarget (z +:+ " " +:+ pn) (_sanitize_ems_name (z +:+ "_" +:+ pn))
                                    (z +:+ " " +:+ pn) z)
                 (get_items_from_list zl "Zone"), [])) /\
  (space_lists_of b !! k = None -> zone_lists_of b !! k = None ->
   forall pz, space_to_zone_of b !! k = Some pz ->
     resolve_one b p = Some ([space_target pn c pz], [])) /\
  (space_lists_of b !! k = None -> zone_lists_of b !! k = None ->
   space_to_zone_of b !! k = None ->
     resolve_one b p = Some ([mkTarget c (_sanitize_ems_name c) pn c], [])).
Proof.
  intros Hc Hne k pn.
  assert (Ht : Py.truthy c = true) by (destruct c; [congruence | reflexivity]).
  unfold resolve_one, resolve_people. rewrite Hc, Ht. simpl negb. cbv iota.
  fold k pn.
  split; [|split; [|split]].
  - intros sl Hsl. rewrite Hsl, spacelist_loop_spec.
    eexists _, _. split; [reflexivity|].
    intros t Hin. apply list_elem_of_omap in Hin as [s [Hs Ht']].
    destruct (space_to_zone_of b !! Py.strip (Py.upper s)) as [pz|] eqn:Hpz;
      [|discriminate].
    simpl in Ht'. injection Ht' as <-.
    exists s. repeat split; [exact Hs | exact Hpz].
  - intros Hsl zl Hzl. rewrite Hsl, Hzl. reflexivity.
  - intros Hsl Hzl pz Hpz. rewrite Hsl, Hzl, Hpz. reflexivity.
  - intros Hsl Hzl Hpz. rewrite Hsl, Hzl, Hpz. reflexivity.
Qed.

Lemma resolve_priority_witness :
  container_name (mkObj "PEOPLE" [("Name", "P"); ("Zone_or_ZoneList_Name", "Nowhere")])
    = Some "Nowhere" /\
  resolve_one unknown_container
    (mkObj "PEOPLE" [("Name", "P"); ("Zone_or_ZoneList_Name", "Nowhere")]) =
    Some ([mkTarget "Nowhere" (_sanitize_ems_name "Nowhere") "P" "Nowhere"], []).
Proof.
  assert (Hc : container_name (mkObj "PEOPLE" [("Name", "P"); ("Zone_or_ZoneList_Name", "Nowhere")])
                 = Some "Nowhere") by reflexivity.
  split; [exact Hc|].
  exact (proj2 (proj2 (proj2 (resolve_priority unknown_container _ "Nowhere" Hc
           ltac:(discriminate)))) eq_refl eq_refl eq_refl).
Defined.

(** C5: in the model SpaceList "SL" = ["S1"], Space "S1" in Zone "Z9",
    People "Q" assigned to "SL", the resolver returns the single target
    "S1 Q" owned by "Z9"; and whenever a People container is a SpaceList,
    its targets are those of the members that have a Space, in order, while
    every member without one gives a warning instead of a target. *)
Theorem spacelist_resolution :
  _resolve_targets spacelist_building = Some ([mkTarget "S1 Q" "S1_Q" "S1 Q" "Z9"], []) /\
  (forall b p c sl,
     container_name p = Some c -> c <> "" ->
     space_lists_of b !! Py.strip (Py.upper c) = Some sl ->
     resolve_one b p =
       Some (omap (fun s => space_target (get p "Name") s <$>
                              space_to_zone_of b !! Py.strip (Py.upper s))
                  (get_items_from_list sl "Space"),
             map (fun s => space_warning s c)
                 (List.filter (unmapped (space_to_zone_of b)) (get_items_from_list sl "Space")))).
Proof.
  split; [reflexivity|].
  intros b p c sl Hc Hne Hsl.
  assert (Ht : Py.truthy c = true) by (destruct c; [congruence | reflexivity]).
  unfold resolve_one, resolve_people. rewrite Hc, Ht. simpl negb. cbv iota.
  rewrite Hsl. f_equal. apply spacelist_loop_spec.
Qed.

Lemma spacelist_resolution_witness :
  resolve_one spacelist_with_missing_space
    (mkObj "PEOPLE" [("Name", "Q"); ("Zone_or_ZoneList_or_Space_or_SpaceList_Name", "sl ")]) =
  Some ([space_target "Q" "S1" "Z9"], [space_warning "S2" "sl "]).
Proof.
  exact (proj2 spacelist_resolution spacelist_with_missing_space
           (mkObj "PEOPLE" [("Name", "Q"); ("Zone_or_ZoneList_or_Space_or_SpaceList_Name", "sl ")]) "sl "
           (mkObj "SPACELIST" [("Name", "SL"); ("Space_1_Name", "S1"); ("Space_2_Name", "S2")])
           eq_refl ltac:(discriminate) eq_refl).
Defined.

(* ------------------------------------------------------------------ *)
(** ** People without a container *)

(** C10: a People object whose container field is blank is skipped: it
    contributes no target, no warning and no error, whatever its place
    among the People objects. *)
Theorem blank_container_skipped zl sl stz (p : IdfObj) (ps1 ps2 : list IdfObj) :
  container_name p = Some "" ->
  resolve_people zl sl stz p = Some ([], []) /\
  resolve_all zl sl stz (ps1 ++ p :: ps2) = resolve_all zl sl stz (ps1 ++ ps2).
Proof.
  intros Hc.
  assert (Hp : resolve_people zl sl stz p = Some ([], [])).
  { unfold resolve_people. rewrite Hc. reflexivity. }
  split; [exact Hp|].
  rewrite !resolve_all_app. simpl. rewrite Hp.
  destruct (resolve_all zl sl stz ps1) as [[t1 w1]|]; [|reflexivity].
  destruct (resolve_all zl sl stz ps2) as [[t2 w2]|]; reflexivity.
Qed.

Lemma blank_container_skipped_witness :
  _resolve_targets (of_objs [
    mkObj "PEOPLE" [("Name", "P0"); ("Zone_or_ZoneList_or_Space_or_SpaceList_Name", "")];
    mkObj "PEOPLE" [("Name", "P1"); ("Zone_or_ZoneList_or_Space_or_SpaceList_Name", "Z1")]]) =
  resolve_all ∅ ∅ ∅
    [mkObj "PEOPLE" [("Name", "P1"); ("Zone_or_ZoneList_or_Space_or_SpaceList_Name", "Z1")]].
Proof.
  exact (proj2 (blank_container_skipped ∅ ∅ ∅
    (mkObj "PEOPLE" [("Name", "P0"); ("Zone_or_ZoneList_or_Space_or_SpaceList_Name", "")])
    [] [mkObj "PEOPLE" [("Name", "P1"); ("Zone_or_ZoneList_or_Space_or_SpaceList_Name", "Z1")]]
    eq_refl)).
Defined.

(* ------------------------------------------------------------------ *)
(** ** The cooling season *)

Lemma truth_of_bool (b : bool) : truth (of_bool b) = b.
Proof. now destruct b. Qed.

(** C6: one run of [set_cooling_season] sets [CoolingSeason] to 1 exactly
    when [CoolSeasonStart <= DayOfYear < CoolSeasonEnd] if the season does
    not wrap ([CoolSeasonEnd > CoolSeasonStart]), and exactly when
    [DayOfYear >= CoolSeasonStart] or [DayOfYear < CoolSeasonEnd] if it
    wraps ([CoolSeasonStart > CoolSeasonEnd]), and to 0 otherwise; equal
    bounds leave the flag unchanged.  For the season 330-90, days 10 and
    340 are in the cooling season and day 200 is not. *)
Theorem set_cooling_season_classifies (ρ : env) :
  let st := ρ "CoolSeasonStart" in
  let en := ρ "CoolSeasonEnd" in
  let d := ρ "DayOfYear" in
  run set_cooling_season_lines ρ "CoolingSeason" =
    (if negb (Qle_bool en st) then of_bool (Qle_bool st d && negb (Qle_bool en d))
     else if negb (Qle_bool st en) then of_bool (Qle_bool st d || negb (Qle_bool en d))
     else ρ "CoolingSeason") /\
  season_flag 330 90 10 = 1%Q /\ season_flag 330 90 340 = 1%Q /\
  season_flag 330 90 200 = 0%Q.
Proof.
  intros st en d. split; [|vm_compute; repeat split].
  unfold run, set_cooling_season_lines. subst st en d.
  destruct (Qle_bool (ρ "CoolSeasonEnd") (ρ "CoolSeasonStart")) eqn:E1;
  destruct (Qle_bool (ρ "CoolSeasonStart") (ρ "CoolSeasonEnd")) eqn:E2;
  destruct (Qle_bool (ρ "CoolSeasonStart") (ρ "DayOfYear")) eqn:E3;
  destruct (Qle_bool (ρ "CoolSeasonEnd") (ρ "DayOfYear")) eqn:E4;
  repeat (cbn -[Qle_bool truth of_bool]; rewrite ?truth_of_bool, ?E1, ?E2, ?E3, ?E4);
  reflexivity.
Qed.

(* ------------------------------------------------------------------ *)
(** ** The aPMV setpoint transform *)

Lemma str_length_app (p s : string) :
  String.length (p +:+ s) = (String.length p + String.length s)%nat.
Proof. induction p; simpl; auto. Qed.

Lemma str_app_inv_r (p q s : string) : p +:+ s = q +:+ s -> p = q.
Proof.
  revert q. induction p as [|a p IH]; intros [|b q] H; simpl in *.
  - reflexivity.
  - exfalso. apply (f_equal String.length) in H. simpl in H.
    rewrite !str_length_app in H. simpl in H. lia.
  - exfalso. apply (f_equal String.length) in H. simpl in H.
    rewrite !str_length_app in H. simpl in H. lia.
  - injection H as -> H. f_equal. now apply IH.
Qed.

Lemma eqb_app_r (p q s : string) : String.eqb (q +:+ s) (p +:+ s) = String.eqb q p.
Proof.
  destruct (String.eqb q p) eqn:E.
  - apply String.eqb_eq in E. subst. apply String.eqb_refl.
  - apply String.eqb_neq. intros H. apply str_app_inv_r in H.
    apply String.eqb_neq in E. contradiction.
Qed.

(** A line that does not assign [x] leaves [x] unchanged. *)
Lemma step_keeps (x : string) (l : line) (ρ : env) (st : list frame) :
  sets x l = false -> (step (ρ, st) l).1 x = ρ x.
Proof.
  intros Hx. destruct l as [y e| c | c | |]; simpl; try reflexivity.
  - destruct (running st); [|reflexivity]. simpl. unfold upd.
    simpl in Hx. rewrite String.eqb_sym, Hx. reflexivity.
  - destruct (running st); reflexivity.
  - destruct st as [|f st']; [reflexivity|].
    destruct (outer_on f && negb (taken f)); reflexivity.
  - destruct st; reflexivity.
  - destruct st; reflexivity.
Qed.

Lemma foldl_step_keeps (x : string) (ls : list line) (ρst : env * list frame) :
  forallb (fun l => negb (sets x l)) ls = true -> (foldl step ρst ls).1 x = ρst.1 x.
Proof.
  revert ρst. induction ls as [|l ls IH]; intros [ρ st] H; [reflexivity|].
  simpl in H. apply andb_true_iff in H as [Hl Hls]. apply negb_true_iff in Hl.
  change ((foldl step (step (ρ, st) l) ls).1 x = ρ x).
  rewrite (IH _ Hls). apply step_keeps, Hl.
Qed.

(** C9 (amended): for every target suffix [s], one run of [apply_aPMV_s]
    sets [aPMV_C_SP_noTol_s] to [pmv_cooling_sp_s / (1 + λ * pmv_cooling_sp_s)],
    where [λ] is [adap_coeff_cooling_s] in the cooling season
    ([CoolingSeason = 1]), [adap_coeff_heating_s] outside it
    ([CoolingSeason = 0]) and the incoming [adap_coeff_s] otherwise.  With a
    base cooling setpoint of 0.5 in the cooling season, [λ = 0] gives
    exactly 0.5, [λ = 0.293] gives 1000/2293 (0.436 to 3 s.f.) and
    [λ = -0.293] gives 1000/1707 (0.586 to 3 s.f.). *)
Theorem apply_aPMV_cooling_transform :
  (forall (s : string) (ρ : env),
    run (apply_aPMV_lines s) ρ ("aPMV_C_SP_noTol_" +:+ s) =
      (ρ ("pmv_cooling_sp_" +:+ s) /
        (1 + (if Qeq_bool (ρ "CoolingSeason") 1 then ρ ("adap_coeff_cooling_" +:+ s)
              else if Qeq_bool (ρ "CoolingSeason") 0 then ρ ("adap_coeff_heating_" +:+ s)
              else ρ ("adap_coeff_" +:+ s)) * ρ ("pmv_cooling_sp_" +:+ s)))%Q) /\
  (apmv_cooling_no_tol (1#2) 0 == 1#2)%Q /\
  (apmv_cooling_no_tol (1#2) (293#1000) == 1000#2293)%Q /\
  (apmv_cooling_no_tol (1#2) (-293#1000) == 1000#1707)%Q /\
  (4355#10000 <= apmv_cooling_no_tol (1#2) (293#1000) < 4365#10000)%Q /\
  (5855#10000 <= apmv_cooling_no_tol (1#2) (-293#1000) < 5865#10000)%Q.
Proof.
  split; [|vm_compute; repeat split; try reflexivity; discriminate].
  intros s ρ. unfold run.
  rewrite <- (firstn_skipn 11 (apply_aPMV_lines s)), foldl_app.
  rewrite foldl_step_keeps.
  2:{ cbn -[String.append String.eqb]. rewrite !eqb_app_r. reflexivity. }
  cbn -[upd String.append Qle_bool truth of_bool Qeq_bool inject_Z].
  change (inject_Z 1) with 1%Q. change (inject_Z 0) with 0%Q.
  destruct (Qeq_bool (ρ "CoolingSeason") 1) eqn:C1;
    [|destruct (Qeq_bool (ρ "CoolingSeason") 0) eqn:C0];
    do 4 (try change (inject_Z 1) with 1%Q; try change (inject_Z 0) with 0%Q;
          rewrite ?C1, ?C0, ?truth_of_bool;
          cbn -[upd String.append Qle_bool truth of_bool Qeq_bool inject_Z]);
    unfold upd; rewrite ?eqb_app_r; cbn -[String.append]; rewrite ?C1, ?C0;
    reflexivity.
Qed.

(** C9: the spec's values 0.435 and 0.581 are not the transform's values
    to 3 significant figures: for [λ = 0.293] the result exceeds 0.4355 and
    for [λ = -0.293] it exceeds 0.5815. *)
Lemma apmv_transform_values_differ :
  (4355#10000 < apmv_cooling_no_tol (1#2) (293#1000))%Q /\
  (5815#10000 < apmv_cooling_no_tol (1#2) (-293#1000))%Q.
Proof. vm_compute. split; reflexivity. Qed.

(* ------------------------------------------------------------------ *)
(** ** Per-target parameter table *)

Lemma process_arg_warnings {A} (names : list string) (arg : Arg A) (arg_name : string)
    (dflt : A) (w : Warning) (k : string) :
  In w (process_arg names arg arg_name dflt).2 -> In k (w_keys w) ->
  Py.in_list k names = false.
Proof.
  destruct arg as [v|d]; simpl; [contradiction|].
  destruct (Py.truthy_list _); simpl; [|contradiction].
  intros [<-|[]]. simpl. intros Hk. apply filter_In in Hk as [_ Hk].
  now apply negb_true_iff.
Qed.

Lemma join_zip_with_warnings {A} (names cols : list string) (args : list (Arg A * A))
    (w : Warning) :
  In w (mjoin (map (fun sd => sd.1.2)
     (zip_with (fun arg_name (ad : Arg A * A) =>
        (process_arg names ad.1 arg_name ad.2, ad.2)) cols args))) ->
  exists arg_name (ad : Arg A * A), In w (process_arg names ad.1 arg_name ad.2).2.
Proof.
  revert args. induction cols as [|c cols IH]; intros [|ad args]; simpl; try contradiction.
  intros Hw. apply in_app_or in Hw as [Hw|Hw]; [now exists c, ad|]. exact (IH _ Hw).
Qed.

(** C7: [generate_df_from_args] warns only about dropped mapping keys:
    every key a warning names is not a target key, so a target missing from
    a mapping is never mentioned in a warning.  For targets ["A"], ["B"]
    and [adap_coeff_cooling = {"A": 0.3}] with default 0.4, target ["B"]
    silently receives 0.4, the scalar fields are replicated on both rows,
    and no warning at all is issued. *)
Theorem generate_df_default_without_warning :
  (forall {A} (tk es : list string) (args : list (Arg A * A)) (w : Warning) (k : string),
     In w (generate_df_from_args tk es args).2 -> In k (w_keys w) ->
     Py.in_list k tk = false) /\
  missing_key_table =
    ([mkRow "A" [3#10; 1; 1; 1; 1; 1; 1; 1] (Some "A");
      mkRow "B" [4#10; 1; 1; 1; 1; 1; 1; 1] (Some "B")], [])%Q.
Proof.
  split; [|reflexivity].
  intros A tk es args w k Hw Hk. unfold generate_df_from_args in Hw; cbn zeta in Hw.
  destruct (join_zip_with_warnings _ _ _ _ Hw) as (arg_name & ad & Hw').
  exact (process_arg_warnings _ _ _ _ _ _ Hw' Hk).
Qed.

(* ------------------------------------------------------------------ *)
(** ** Setpoint schedules *)

Lemma newobj_objs (b : Building) (ty : string) (fs : list (string * string)) :
  map snd (objs (newobj b ty fs)) = (map snd (objs b) ++ [mkObj (Py.upper ty) fs])%list.
Proof. unfold newobj, newidfobject. simpl. now rewrite map_app. Qed.

Lemma ensure_schedules_inner (names : list string) (i : string) (zs : list string)
    (b : Building) :
  map snd (objs (foldl (fun b zone =>
      let sch_name := i +:+ "_" +:+ zone in
      if Py.in_list sch_name names then b
      else newobj b "Schedule:Compact" (compact_schedule_fields sch_name "1")) b zs)) =
  (map snd (objs b) ++
    map schedule_obj (List.filter (fun n => negb (Py.in_list n names))
                                  (map (fun z => i +:+ "_" +:+ z) zs)))%list.
Proof.
  revert b. induction zs as [|z zs IH]; intros b; cbn [foldl map List.filter].
  - now rewrite app_nil_r.
  - rewrite IH. cbv beta zeta.
    destruct (Py.in_list (i +:+ "_" +:+ z) names); cbn [negb map]; [reflexivity|].
    rewrite newobj_objs, <- app_assoc. reflexivity.
Qed.

(** The schedule step of [_ensure_infrastructure] appends, for [i] in
    [PMV_H_SP], [PMV_C_SP] and then for each zone [z] of [unique_zones], a
    [Schedule:Compact] named [i_z] holding 1 unless a [Schedule:Compact] of
    that name existed before the call. *)
Lemma ensure_schedules_objects (b : Building) (zs : list string) :
  map snd (objs (ensure_schedules b zs)) =
  (map snd (objs b) ++
    map schedule_obj
      (List.filter (fun n => negb (Py.in_list n (schedule_names b)))
         (flat_map (fun i => map (fun z => i +:+ "_" +:+ z) zs) ["PMV_H_SP"; "PMV_C_SP"])))%list.
Proof.
  unfold ensure_schedules. cbn [foldl].
  rewrite !ensure_schedules_inner, <- app_assoc. simpl.
  now rewrite app_nil_r, List.filter_app, map_app.
Qed.

(** C8: after [apply_apmv_setpoints] on a model with one zone [Z1], the
    heating setpoint schedule [PMV_H_SP_Z1] holds 1, not -0.5, and the
    cooling setpoint schedule [PMV_C_SP_Z1] holds 1, not +0.5. *)
Lemma pmv_schedules_hold_one :
  (fun b => schedule_field3 b "PMV_H_SP_Z1") <$>
    apply_apmv_setpoints one_zone_building default_args = Some (Some "Until: 24:00,1") /\
  "Until: 24:00,1" <> "Until: 24:00,-0.5" /\
  (fun b => schedule_field3 b "PMV_C_SP_Z1") <$>
    apply_apmv_setpoints one_zone_building default_args = Some (Some "Until: 24:00,1") /\
  "Until: 24:00,1" <> "Until: 24:00,0.5".
Proof. vm_compute. repeat split; discriminate. Qed.

(* ================================================================== *)
(** * Further properties of the code *)

(* ------------------------------------------------------------------ *)
(** ** [_sanitize_ems_name]: the characters it replaces *)

Lemma sanitize_cons (c : ascii) (s : string) :
  _sanitize_ems_name (String c s) = String (sanitize_char c) (_sanitize_ems_name s).
Proof.
  unfold _sanitize_ems_name, sanitize_char. cbn [Py.replace_char]. f_equal.
  destruct c as [[] [] [] [] [] [] [] []]; reflexivity.
Qed.

Theorem sanitize_ems_name_chars (name : string) :
  String.list_ascii_of_string (_sanitize_ems_name name) = map sanitize_char (String.list_ascii_of_string name) /\
  (forall c, In c (String.list_ascii_of_string (_sanitize_ems_name name)) ->
     c <> " "%char /\ c <> ":"%char /\ c <> "-"%char) /\
  _sanitize_ems_name (_sanitize_ems_name name) = _sanitize_ems_name name.
Proof.
  induction name as [|c s IH]; [split; [reflexivity|split; [contradiction|reflexivity]]|].
  destruct IH as (IH1 & IH2 & IH3).
  rewrite !sanitize_cons. simpl. rewrite IH1, IH3. split; [reflexivity|split].
  - intros d [<-|Hd].
    + destruct c as [[] [] [] [] [] [] [] []]; repeat split; discriminate.
    + apply IH2. now rewrite IH1.
  - f_equal. destruct c as [[] [] [] [] [] [] [] []]; reflexivity.
Qed.

(* ------------------------------------------------------------------ *)
(** ** [_resolve_targets]: when it raises *)

Lemma resolve_people_none zl sl stz p :
  resolve_people zl sl stz p = None <-> container_name p = None.
Proof.
  unfold resolve_people. destruct (container_name p); [|tauto].
  split; [|discriminate].
  destruct (negb _); [discriminate|].
  destruct (sl !! _); [discriminate|]. destruct (zl !! _); [discriminate|].
  destruct (stz !! _); discriminate.
Qed.

Lemma resolve_all_none zl sl stz ps :
  resolve_all zl sl stz ps = None <-> Exists (fun p => container_name p = None) ps.
Proof.
  induction ps as [|p ps IH]; simpl.
  - split; [discriminate|]. intros H. inversion H.
  - rewrite Exists_cons, <- IH, <- (resolve_people_none zl sl stz p).
    destruct (resolve_people zl sl stz p) as [[ts ws]|];
      destruct (resolve_all zl sl stz ps) as [[ts' ws']|];
      split; intros H; try discriminate; auto; destruct H; discriminate.
Qed.

Theorem resolve_targets_raises_iff (b : Building) :
  _resolve_targets b = None <->
  Exists (fun p => container_name p = None) (idfobjects b "PEOPLE").
Proof. apply resolve_all_none. Qed.

(* ------------------------------------------------------------------ *)
(** ** [get_input_template_dictionary] and [generate_df_from_args] *)

Lemma in_list_In (k : string) (ks : list string) : Py.in_list k ks = true <-> In k ks.
Proof.
  unfold Py.in_list. rewrite existsb_exists. split.
  - intros (x & Hx & E). apply String.eqb_eq in E. now subst.
  - intros Hk. exists k. split; [exact Hk|apply String.eqb_refl].
Qed.

Lemma dedup_keys_In (k : string) (seen ks : list string) :
  In k (dedup_keys seen ks) -> In k ks.
Proof.
  revert seen. induction ks as [|x ks IH]; intros seen; simpl; [contradiction|].
  destruct (Py.in_list x seen).
  - intros H. right. exact (IH _ H).
  - intros [->|H]; [now left|right; exact (IH _ H)].
Qed.

Lemma dict_get_const {A} (keys : list string) (v dflt : A) (k : string) :
  In k keys -> dict_get (map (fun key => (key, v)) keys) k dflt = v.
Proof.
  unfold dict_get. induction keys as [|x keys IH]; simpl; [contradiction|].
  intros [->|Hk]; [now rewrite String.eqb_refl|].
  destruct (String.eqb x k); [reflexivity|exact (IH Hk)].
Qed.

Lemma process_arg_template (keys : list string) (arg_name dflt : string) :
  process_arg keys (ArgDict (template_of keys)) arg_name dflt =
    (map (fun k => (k, "replace-me-with-float-value")) (dedup_keys [] keys), []).
Proof.
  unfold process_arg, template_of. f_equal.
  - apply map_ext_in. intros k Hk. f_equal. now apply dict_get_const.
  - rewrite (List.filter_ext_in _ (fun _ => false)); [now rewrite List.filter_false|].
    intros k Hk. rewrite map_map in Hk. simpl in Hk. rewrite map_id in Hk.
    apply dedup_keys_In in Hk. apply in_list_In in Hk. now rewrite Hk.
Qed.

Lemma generate_df_template_no_warning (keys es : list string) (dflts : list string) :
  (generate_df_from_args keys es (map (fun d => (ArgDict (template_of keys), d)) dflts)).2 = [].
Proof.
  unfold generate_df_from_args. cbn -[process_arg df_columns].
  generalize df_columns. induction dflts as [|d dflts IH]; intros [|c cols];
    cbn -[process_arg]; try reflexivity.
  rewrite process_arg_template. apply IH.
Qed.

Theorem input_template_accepted (b : Building) (keys : list string)
    (tmpl : list (string * string)) (es dflts : list string) (arg_name dflt : string) :
  get_available_target_names b = Some keys ->
  get_input_template_dictionary b = Some tmpl ->
  process_arg keys (ArgDict tmpl) arg_name dflt =
    (map (fun k => (k, "replace-me-with-float-value")) (dedup_keys [] keys), []) /\
  (generate_df_from_args keys es (map (fun d => (ArgDict tmpl, d)) dflts)).2 = [].
Proof.
  unfold get_input_template_dictionary. intros Hk Ht. rewrite Hk in Ht.
  injection Ht as <-. split; [apply process_arg_template|apply generate_df_template_no_warning].
Qed.

Lemma input_template_accepted_witness :
  get_available_target_names two_people_one_zone = Some ["Z1"; "Z1"] /\
  get_input_template_dictionary two_people_one_zone = Some [("Z1", "replace-me-with-float-value")] /\
  process_arg ["Z1"; "Z1"] (ArgDict [("Z1", "replace-me-with-float-value")]) "pmv_cooling_sp" "0.5" =
    ([("Z1", "replace-me-with-float-value")], []) /\
  (generate_df_from_args ["Z1"; "Z1"] ["Z1"; "Z1"]
     (map (fun d => (ArgDict [("Z1", "replace-me-with-float-value")], d)) ["0.4"])).2 = [].
Proof.
  assert (H1 : get_available_target_names two_people_one_zone = Some ["Z1"; "Z1"]) by reflexivity.
  assert (H2 : get_input_template_dictionary two_people_one_zone =
                 Some [("Z1", "replace-me-with-float-value")]) by reflexivity.
  destruct (input_template_accepted two_people_one_zone _ _ ["Z1"; "Z1"] ["0.4"]
              "pmv_cooling_sp" "0.5" H1 H2) as [H3 H4].
  split; [exact H1|]. split; [exact H2|]. split; [exact H3|exact H4].
Defined.

(* ------------------------------------------------------------------ *)
(** ** [set_zones_always_occupied] *)

Lemma set_field_idem (fs : list (string * string)) (f v : string) :
  set_field (set_field fs f v) f v = set_field fs f v.
Proof.
  induction fs as [|[k w] fs IH]; simpl.
  - now rewrite String.eqb_refl.
  - destruct (String.eqb k f) eqn:E; simpl; rewrite E; [reflexivity|now rewrite IH].
Qed.

Lemma field_opt_set_field (fs : list (string * string)) (f v g : string) :
  field_opt (set_field fs f v) g = if String.eqb f g then Some v else field_opt fs g.
Proof.
  induction fs as [|[k w] fs IH]; simpl.
  - reflexivity.
  - destruct (String.eqb_spec k f) as [->|Hkf]; simpl.
    + destruct (String.eqb f g); reflexivity.
    + rewrite IH. destruct (String.eqb_spec f g) as [->|Hfg]; [|reflexivity].
      destruct (String.eqb_spec k g); [congruence|reflexivity].
Qed.

Lemma foldl_setattr (f v : string) (l : list (nat * IdfObj)) (b : Building) :
  foldl (fun b io => setattr b io.1 f v) b l =
  mkBuilding
    (map (fun io => if existsb (Nat.eqb io.1) (map fst l)
                    then (io.1, mkObj (obj_type io.2) (set_field (obj_fields io.2) f v))
                    else io) (objs b))
    (next_id b).
Proof.
  revert b. induction l as [|[i o] l IH]; intros b; simpl.
  - destruct b as [os n]. simpl. f_equal. induction os; simpl; congruence.
  - rewrite IH. unfold setattr. simpl. f_equal. rewrite map_map. apply map_ext.
    intros [n o']. simpl. destruct (Nat.eqb n i); simpl; [|reflexivity].
    destruct (existsb (Nat.eqb n) (map fst l)); [|reflexivity].
    simpl. now rewrite set_field_idem.
Qed.

Lemma filter_map_type (F : nat * IdfObj -> nat * IdfObj) (ty : string) (l : list (nat * IdfObj)) :
  (forall io, obj_type (F io).2 = obj_type io.2) ->
  List.filter (fun io => String.eqb (obj_type io.2) ty) (map F l) =
  map F (List.filter (fun io => String.eqb (obj_type io.2) ty) l).
Proof.
  intros HF. induction l as [|io l IH]; simpl; [reflexivity|].
  rewrite HF. destruct (String.eqb _ ty); simpl; now rewrite IH.
Qed.

Theorem set_zones_always_occupied_idempotent (b : Building) :
  let b' := set_zones_always_occupied b in
  Forall (fun o => get o "Number_of_People_Schedule_Name" = "On") (idfobjects b' "People") /\
  Py.in_list "On" (schedule_names b') = true /\
  set_zones_always_occupied b' = b'.
Proof.
  unfold set_zones_always_occupied at 1.
  set (b0 := if Py.in_list "On" _ then b else _).
  assert (H0 : Py.in_list "On" (map (fun o => get o "Name") (idfobjects b0 "schedule:compact")) = true).
  { subst b0.
    destruct (Py.in_list "On" (map (fun o => get o "Name") (idfobjects b "schedule:compact"))) eqn:E;
      [exact E|].
    unfold newobj, newidfobject, idfobjects, idfobjects_id. simpl.
    rewrite List.filter_app, !map_app. unfold Py.in_list. rewrite existsb_app.
    simpl. now rewrite orb_true_r. }
  rewrite foldl_setattr.
  set (F := fun io : nat * IdfObj =>
              if existsb (Nat.eqb io.1) (map fst (idfobjects_id b0 "people"))
              then (io.1, mkObj (obj_type io.2)
                             (set_field (obj_fields io.2) "Number_of_People_Schedule_Name" "On"))
              else io).
  assert (HT : forall io, obj_type (F io).2 = obj_type io.2).
  { intros io. subst F. simpl. now destruct (existsb _ _). }
  assert (HN : forall io, get (F io).2 "Name" = get io.2 "Name").
  { intros io. subst F. simpl. destruct (existsb _ _); [|reflexivity].
    unfold get. simpl. now rewrite field_opt_set_field. }
  assert (Hsch : forall ty, map (fun o => get o "Name") (idfobjects (mkBuilding (map F (objs b0)) (next_id b0)) ty)
                      = map (fun o => get o "Name") (idfobjects b0 ty)).
  { intros ty. unfold idfobjects, idfobjects_id. simpl. rewrite filter_map_type by exact HT.
    rewrite !map_map. apply map_ext. intros io. apply HN. }
  assert (Hid : map fst (idfobjects_id (mkBuilding (map F (objs b0)) (next_id b0)) "people")
                = map fst (idfobjects_id b0 "people")).
  { unfold idfobjects_id. simpl. rewrite filter_map_type by exact HT.
    rewrite map_map. apply map_ext. intros io. subst F. simpl. now destruct (existsb _ _). }
  split; [|split].
  - apply List.Forall_forall. intros o Ho.
    assert (Hup : Py.upper "People" = Py.upper "people") by reflexivity.
    unfold idfobjects, idfobjects_id in Ho. rewrite Hup in Ho. cbn [objs] in Ho.
    rewrite filter_map_type in Ho by exact HT.
    apply in_map_iff in Ho as (io' & <- & Ho). apply in_map_iff in Ho as (io & <- & Ho).
    assert (Hin : existsb (Nat.eqb io.1) (map fst (idfobjects_id b0 "people")) = true).
    { apply existsb_exists. exists io.1. split; [|apply Nat.eqb_refl].
      apply in_map. exact Ho. }
    subst F. simpl. rewrite Hin. unfold get. simpl. now rewrite field_opt_set_field.
  - unfold schedule_names. rewrite Hsch. exact H0.
  - unfold set_zones_always_occupied. rewrite Hsch. cbn zeta.
    replace (Py.in_list "On" (map (fun o => get o "Name") (idfobjects b0 "schedule:compact"))) with true.
    rewrite foldl_setattr, Hid. simpl. f_equal. rewrite map_map. apply map_ext.
    intros io. subst F. cbv beta.
    destruct (existsb (Nat.eqb io.1) (map fst (idfobjects_id b0 "people"))) eqn:E;
      cbn [fst snd obj_type obj_fields]; rewrite ?E; [|reflexivity].
    now rewrite set_field_idem.
Qed.

(* ------------------------------------------------------------------ *)
(** ** [transform_ddmm_to_int] *)

Lemma date_yday_2007_inv (m d n : Z) :
  date_yday_2007 m d = Some n ->
  (1 <= m <= 12)%Z /\ (1 <= d <= days_in_month_2007 m)%Z /\ n = (days_before_month_2007 m + d)%Z.
Proof.
  unfold date_yday_2007.
  destruct ((1 <=? m) && (m <=? 12) && (1 <=? d) && (d <=? days_in_month_2007 m))%Z eqn:E;
    [|discriminate].
  intros [= <-]. rewrite !andb_true_iff, !Z.leb_le in E. lia.
Qed.

Lemma month_cases (m : Z) : (1 <= m <= 12)%Z ->
  m = 1%Z \/ m = 2%Z \/ m = 3%Z \/ m = 4%Z \/ m = 5%Z \/ m = 6%Z \/
  m = 7%Z \/ m = 8%Z \/ m = 9%Z \/ m = 10%Z \/ m = 11%Z \/ m = 12%Z.
Proof. lia. Qed.

Theorem transform_ddmm_to_int_range (s : string) (n : Z) :
  transform_ddmm_to_int s = Some n -> (1 <= n <= 365)%Z.
Proof.
  unfold transform_ddmm_to_int.
  destruct (mapM py_int (split_on "/" s)) as [[|d [|m rest]]|]; simpl; try discriminate.
  intros H. apply date_yday_2007_inv in H as (Hm & Hd & ->).
  destruct (month_cases m Hm) as [->|[->|[->|[->|[->|[->|[->|[->|[->|[->|[->| ->]]]]]]]]]]];
    unfold days_before_month_2007, days_in_month_2007 in *; simpl in *; lia.
Qed.

Lemma transform_ddmm_to_int_range_witness :
  transform_ddmm_to_int "31/12" = Some 365%Z /\ (1 <= 365 <= 365)%Z.
Proof.
  assert (H : transform_ddmm_to_int "31/12" = Some 365%Z) by reflexivity.
  split; [exact H|exact (transform_ddmm_to_int_range _ _ H)].
Defined.

Theorem date_yday_2007_increasing (m1 d1 m2 d2 n1 n2 : Z) :
  date_yday_2007 m1 d1 = Some n1 -> date_yday_2007 m2 d2 = Some n2 ->
  (m1 < m2 \/ (m1 = m2 /\ d1 < d2))%Z -> (n1 < n2)%Z.
Proof.
  intros H1 H2 Hlt.
  apply date_yday_2007_inv in H1 as (Hm1 & Hd1 & ->).
  apply date_yday_2007_inv in H2 as (Hm2 & Hd2 & ->).
  destruct (month_cases m1 Hm1) as [->|[->|[->|[->|[->|[->|[->|[->|[->|[->|[->| ->]]]]]]]]]]];
  destruct (month_cases m2 Hm2) as [->|[->|[->|[->|[->|[->|[->|[->|[->|[->|[->| ->]]]]]]]]]]];
    unfold days_before_month_2007, days_in_month_2007 in *; simpl in *; lia.
Qed.

Lemma date_yday_2007_increasing_witness :
  date_yday_2007 2 28 = Some 59%Z /\ date_yday_2007 3 1 = Some 60%Z /\ (59 < 60)%Z.
Proof.
  assert (H1 : date_yday_2007 2 28 = Some 59%Z) by reflexivity.
  assert (H2 : date_yday_2007 3 1 = Some 60%Z) by reflexivity.
  split; [exact H1|split; [exact H2|]].
  apply (date_yday_2007_increasing 2 28 3 1 59 60 H1 H2). left. lia.
Defined.

Theorem transform_ddmm_to_int_round_trip (n : Z) :
  (1 <= n <= 365)%Z -> transform_ddmm_to_int (ddmm_of_yday n) = Some n.
Proof.
  intros Hn.
  assert (Hall : forallb (fun k => bool_decide (transform_ddmm_to_int (ddmm_of_yday (Z.of_nat k))
                                                = Some (Z.of_nat k)))
                         (seq 1 365) = true) by (vm_compute; reflexivity).
  rewrite forallb_forall in Hall. specialize (Hall (Z.to_nat n)).
  rewrite Z2Nat.id in Hall by lia. apply bool_decide_eq_true in Hall; [exact Hall|].
  apply in_seq. lia.
Qed.

Lemma transform_ddmm_to_int_round_trip_witness :
  ddmm_of_yday 60 = "1/3" /\ transform_ddmm_to_int (ddmm_of_yday 60) = Some 60%Z.
Proof.
  split; [reflexivity|]. apply transform_ddmm_to_int_round_trip. lia.
Defined.

Lemma split_on_no_sep (sep : ascii) (s : string) :
  ~ In sep (String.list_ascii_of_string s) -> split_on sep s = [s].
Proof.
  induction s as [|c s IH]; simpl; [reflexivity|].
  intros H. destruct (Ascii.eqb_spec c sep) as [->|_]; [now destruct H; left|].
  rewrite IH by tauto. reflexivity.
Qed.

Theorem transform_ddmm_to_int_needs_slash (s : string) :
  ~ In "/"%char (String.list_ascii_of_string s) -> transform_ddmm_to_int s = None.
Proof.
  intros H. unfold transform_ddmm_to_int. rewrite split_on_no_sep by exact H.
  simpl. destruct (py_int s); reflexivity.
Qed.

Lemma transform_ddmm_to_int_needs_slash_witness :
  ~ In "/"%char (String.list_ascii_of_string "0112") /\ transform_ddmm_to_int "0112" = None.
Proof.
  assert (H : ~ In "/"%char (String.list_ascii_of_string "0112")).
  { simpl. intros [H|[H|[H|[H|[]]]]]; discriminate. }
  split; [exact H|exact (transform_ddmm_to_int_needs_slash _ H)].
Defined.

(* ------------------------------------------------------------------ *)
(** ** [change_adaptive_coeff] *)

Lemma setattr_shape (b : Building) (id : nat) (f v : string) :
  map (fun io => (io.1, obj_type io.2)) (objs (setattr b id f v)) =
  map (fun io => (io.1, obj_type io.2)) (objs b) /\
  next_id (setattr b id f v) = next_id b /\
  forall g, f <> g ->
    map (fun io => (io.1, field_opt (obj_fields io.2) g)) (objs (setattr b id f v)) =
    map (fun io => (io.1, field_opt (obj_fields io.2) g)) (objs b).
Proof.
  unfold setattr. simpl. split; [|split; [reflexivity|]].
  - rewrite map_map. apply map_ext. intros io. now destruct (Nat.eqb io.1 id).
  - intros g Hg. rewrite map_map. apply map_ext. intros io.
    destruct (Nat.eqb io.1 id); [|reflexivity]. simpl.
    rewrite field_opt_set_field. apply String.eqb_neq in Hg. now rewrite Hg.
Qed.

Lemma idfobjects_id_setattr b id f v ty :
  idfobjects_id (setattr b id f v) ty =
  map (fun io => if Nat.eqb io.1 id
                 then (io.1, mkObj (obj_type io.2) (set_field (obj_fields io.2) f v))
                 else io) (idfobjects_id b ty).
Proof. unfold idfobjects_id, setattr. simpl. apply filter_map_type. intros io. now destruct (Nat.eqb io.1 id). Qed.

Lemma existsb_name_setattr (P : string -> bool) b pid f v ty :
  f <> "Name" ->
  existsb (fun io => P (get io.2 "Name")) (idfobjects_id (setattr b pid f v) ty) =
  existsb (fun io => P (get io.2 "Name")) (idfobjects_id b ty).
Proof.
  intros Hf. rewrite idfobjects_id_setattr. induction (idfobjects_id b ty) as [|io l IH]; simpl; [reflexivity|].
  rewrite IH. f_equal. destruct (Nat.eqb io.1 pid); [|reflexivity].
  unfold get. cbn [snd obj_fields]. rewrite field_opt_set_field.
  apply String.eqb_neq in Hf. now rewrite Hf.
Qed.

Theorem change_adaptive_coeff_raises_iff (b : Building) (rows : list (Row string)) :
  change_adaptive_coeff b rows = None <->
  Exists (fun r => row_suffix r = None) rows /\
  existsb (fun io => str_contains "set_zone_input_data" (get io.2 "Name"))
          (idfobjects_id b "EnergyManagementSystem:Program") = true.
Proof.
  unfold change_adaptive_coeff. revert b. induction rows as [|r rows IH]; intros b; simpl.
  - split; [discriminate|intros [H _]; inversion H].
  - rewrite Exists_cons. destruct (row_suffix r) as [z|] eqn:Er; simpl.
    + destruct (List.filter _ _) as [|[pid o] ps]; simpl; rewrite IH;
        rewrite ?existsb_name_setattr by discriminate;
        split; intros [H1 H2]; (split; [|exact H2]);
        [now right|destruct H1 as [H1|H1]; [discriminate|exact H1]
        |now right|destruct H1 as [H1|H1]; [discriminate|exact H1]].
    + destruct (existsb _ _) eqn:E; simpl.
      * split; [intros _; split; [now left|reflexivity]|reflexivity].
      * rewrite IH, E. split; intros [_ H]; discriminate.
Qed.



Theorem change_adaptive_coeff_only_rewrites_lines (b b' : Building) (rows : list (Row string)) :
  change_adaptive_coeff b rows = Some b' ->
  map (fun io => (io.1, obj_type io.2)) (objs b') = map (fun io => (io.1, obj_type io.2)) (objs b) /\
  next_id b' = next_id b /\
  forall g, g <> "Program_Line_1" -> g <> "Program_Line_2" ->
    map (fun io => (io.1, field_opt (obj_fields io.2) g)) (objs b') =
    map (fun io => (io.1, field_opt (obj_fields io.2) g)) (objs b).
Proof.
  unfold change_adaptive_coeff. revert b. induction rows as [|r rows IH]; intros b; simpl.
  - intros [= <-]. auto.
  - destruct (row_suffix r) as [z|]; simpl;
      [|destruct (existsb _ _); simpl; [discriminate|exact (IH b)]].
    destruct (List.filter _ _) as [|[pid o] ps]; simpl; intros H.
    + exact (IH _ H).
    + destruct (IH _ H) as (T1 & N1 & F1).
      set (b1 := setattr b pid "Program_Line_1" _) in *.
      destruct (setattr_shape b pid "Program_Line_1"
                  ("set adap_coeff_cooling_" +:+ z +:+ " = " +:+ default "" (row_vals r !! 0%nat)))
        as (T2 & N2 & F2).
      destruct (setattr_shape b1 pid "Program_Line_2"
                  ("set adap_coeff_heating_" +:+ z +:+ " = " +:+ default "" (row_vals r !! 1%nat)))
        as (T3 & N3 & F3).
      split; [|split].
      * rewrite T1, T3. exact T2.
      * rewrite N1, N3. exact N2.
      * intros g G1 G2. rewrite F1, F3, F2 by congruence; auto.
Qed.

Lemma change_adaptive_coeff_only_rewrites_lines_witness :
  exists b', change_adaptive_coeff zone_input_program_building [mkRow "Z1" ["0.4"; "-0.4"] (Some "Z1")] = Some b' /\
    next_id b' = next_id zone_input_program_building /\
    map (fun io => get io.2 "Program_Line_1") (objs b') = ["set adap_coeff_cooling_Z1 = 0.4"].
Proof.
  eexists. split; [reflexivity|]. split; [|reflexivity].
  exact (proj1 (proj2 (change_adaptive_coeff_only_rewrites_lines zone_input_program_building _
                         [mkRow "Z1" ["0.4"; "-0.4"] (Some "Z1")] eq_refl))).
Defined.

(* ------------------------------------------------------------------ *)
(** ** [_add_apmv_outputs]: the output control object *)

Lemma grows_refl T b : grows_by T b b.
Proof. exists []. now rewrite app_nil_r. Qed.

Lemma newobj_grows T b b0 ty fs :
  grows_by T b b0 -> T (Py.upper ty) = true -> grows_by T b (newobj b0 ty fs).
Proof.
  intros [ex [E F]] HT. exists (ex ++ [(next_id b0, mkObj (Py.upper ty) fs)])%list.
  split; [unfold newobj, newidfobject; simpl; rewrite E; now rewrite app_assoc|].
  apply Forall_app. split; [exact F|]. constructor; [exact HT|constructor].
Qed.

Lemma foldl_grows {A} T (f : Building -> A -> Building) xs b b0 :
  grows_by T b b0 -> (forall b' x, grows_by T b' (f b' x)) -> grows_by T b (foldl f b0 xs).
Proof.
  intros H0 Hf. revert b0 H0. induction xs as [|x xs IH]; intros b0 H0; simpl; [exact H0|].
  apply IH. destruct H0 as [e1 [E1 F1]]. destruct (Hf b0 x) as [e2 [E2 F2]].
  exists (e1 ++ e2)%list. split; [rewrite E2, E1; now rewrite app_assoc|].
  apply Forall_app; auto.
Qed.

Lemma idfobjects_id_grows T b b' ty :
  grows_by T b b' -> T (Py.upper ty) = false -> idfobjects_id b' ty = idfobjects_id b ty.
Proof.
  intros [ex [E F]] HT. unfold idfobjects_id. rewrite E, List.filter_app.
  replace (List.filter _ ex) with (@nil (nat * IdfObj)); [now rewrite app_nil_r|].
  symmetry. rewrite <- (List.filter_false ex). apply List.filter_ext_in.
  intros io Hin. rewrite List.Forall_forall in F. specialize (F io Hin).
  destruct (String.eqb_spec (obj_type io.2) (Py.upper ty)) as [He|]; [|reflexivity].
  rewrite He in F. congruence.
Qed.

Ltac grows_tac :=
  repeat match goal with
  | |- grows_by _ ?b ?b => apply grows_refl
  | |- grows_by _ _ (foldl _ _ _) => apply foldl_grows; [|intros ? ?; cbv beta]
  | |- grows_by _ _ (if ?c then _ else _) => destruct c
  | |- grows_by _ _ (match ?x with _ => _ end) => destruct x
  | |- grows_by _ _ (newobj _ _ _) => apply newobj_grows; [|reflexivity]
  end.

Lemma outputs_for_freq_grows other zs b freq :
  grows_by output_types b (outputs_for_freq other zs b freq).
Proof. unfold outputs_for_freq. cbv zeta. grows_tac. Qed.


Theorem add_apmv_outputs_output_control (b : Building) (freqs : list string) (other : bool)
    (suffixes zones : list string) :
  let b' := _add_apmv_outputs b freqs other suffixes zones in
  length (idfobjects b' "OutputControl:Files") = Nat.max 1 (length (idfobjects b "OutputControl:Files")) /\
  exists o rest, idfobjects b' "OutputControl:Files" = o :: rest /\
    get o "Output_CSV" = "Yes" /\ get o "Output_MTR" = "Yes" /\ get o "Output_ESO" = "Yes".
Proof.
  cbv zeta. unfold _add_apmv_outputs. cbv zeta.
  set (b2 := foldl (outputs_for_freq other zones) _ freqs).
  assert (G : grows_by output_types b b2).
  { subst b2. apply foldl_grows; [|intros; apply outputs_for_freq_grows]. grows_tac. }
  assert (Hid := idfobjects_id_grows _ _ _ "OutputControl:Files" G eq_refl).
  unfold idfobjects at 2. rewrite <- Hid. clearbody b2.
  destruct (idfobjects_id b2 "OutputControl:Files") as [|[oc o] rest] eqn:E.
  - unfold idfobjects, idfobjects_id, newobj, newidfobject. cbn [fst objs].
    unfold idfobjects_id in E. rewrite List.filter_app, E. simpl.
    split; [reflexivity|]. eexists _, []. split; [reflexivity|]. repeat split.
  - unfold idfobjects. rewrite !idfobjects_id_setattr, E. cbn [map fst snd obj_type obj_fields]. rewrite Nat.eqb_refl.
    cbn [length]. rewrite !length_map. split; [lia|].
    eexists _, _. split; [reflexivity|]. unfold get; cbn [obj_fields snd fst].
    rewrite ?Nat.eqb_refl; cbn [obj_fields obj_type fst snd]; rewrite ?Nat.eqb_refl; cbn [obj_fields obj_type fst snd].
    rewrite !field_opt_set_field. repeat split.
Qed.

(* ------------------------------------------------------------------ *)
(** ** [apply_aPMV] actuators and [count_aPMV_comfort_hours] *)

Lemma apply_aPMV_head_closes (s : string) (ρ : env) :
  (foldl step (ρ, []) (firstn 13 (apply_aPMV_lines s))).2 = [].
Proof.
  do 6 (cbn -[upd eval String.append];
        try match goal with |- context [if ?c then _ else _] => destruct c end);
  reflexivity.
Qed.

Lemma apply_aPMV_tail (s : string) (ρ : env) :
  let ρ' := (foldl step (ρ, []) (skipn 13 (apply_aPMV_lines s))).1 in
  ρ' ("PMV_H_SP_act_" +:+ s) =
    (if Qle_bool (ρ ("People_Occupant_Count_" +:+ s)) 0 then -100
     else if Qle_bool 0 (ρ ("aPMV_H_SP_" +:+ s)) then 0 else ρ ("aPMV_H_SP_" +:+ s))%Q /\
  ρ' ("PMV_C_SP_act_" +:+ s) =
    (if Qle_bool (ρ ("People_Occupant_Count_" +:+ s)) 0 then 100
     else if Qle_bool (ρ ("aPMV_C_SP_" +:+ s)) 0 then 0 else ρ ("aPMV_C_SP_" +:+ s))%Q.
Proof.
  cbv zeta.
  do 8 (cbn -[upd String.append Qle_bool truth of_bool inject_Z];
        try change (inject_Z 0) with 0%Q; rewrite ?truth_of_bool;
        unfold upd; rewrite ?eqb_app_r; cbn -[String.append Qle_bool truth of_bool inject_Z];
        try match goal with |- context [Qle_bool ?a ?b] => destruct (Qle_bool a b) end);
  unfold upd; rewrite ?eqb_app_r; cbn -[String.append]; rewrite ?eqb_app_r;
  cbn -[String.append]; split; reflexivity.
Qed.

Theorem apply_aPMV_actuator_setpoints (s : string) (ρ : env) :
  let ρ' := run (apply_aPMV_lines s) ρ in
  ρ' ("PMV_H_SP_act_" +:+ s) =
    (if Qle_bool (ρ ("People_Occupant_Count_" +:+ s)) 0 then -100
     else if Qle_bool 0 (ρ' ("aPMV_H_SP_" +:+ s)) then 0 else ρ' ("aPMV_H_SP_" +:+ s))%Q /\
  ρ' ("PMV_C_SP_act_" +:+ s) =
    (if Qle_bool (ρ ("People_Occupant_Count_" +:+ s)) 0 then 100
     else if Qle_bool (ρ' ("aPMV_C_SP_" +:+ s)) 0 then 0 else ρ' ("aPMV_C_SP_" +:+ s))%Q /\
  (ρ' ("PMV_H_SP_act_" +:+ s) <= 0)%Q /\ (0 <= ρ' ("PMV_C_SP_act_" +:+ s))%Q.
Proof.
  cbv zeta. unfold run.
  rewrite <- (firstn_skipn 13 (apply_aPMV_lines s)), foldl_app.
  assert (Hocc : (foldl step (ρ, []) (firstn 13 (apply_aPMV_lines s))).1
                   ("People_Occupant_Count_" +:+ s) = ρ ("People_Occupant_Count_" +:+ s)).
  { apply foldl_step_keeps. cbn -[String.append String.eqb]. rewrite !eqb_app_r. reflexivity. }
  rewrite (surjective_pairing (foldl step (ρ, []) (firstn 13 (apply_aPMV_lines s)))),
    apply_aPMV_head_closes in *.
  revert Hocc. generalize (foldl step (ρ, []) (firstn 13 (apply_aPMV_lines s))).1 as ρ13.
  intros ρ13 Hocc.
  assert (Hk : forall x, x = "aPMV_H_SP_" +:+ s \/ x = "aPMV_C_SP_" +:+ s ->
    (foldl step (ρ13, []) (skipn 13 (apply_aPMV_lines s))).1 x = ρ13 x).
  { intros x [-> | ->]; apply foldl_step_keeps; cbn -[String.append String.eqb];
      rewrite !eqb_app_r; reflexivity. }
  rewrite (Hk _ (or_introl eq_refl)), (Hk _ (or_intror eq_refl)). rewrite <- Hocc.
  destruct (apply_aPMV_tail s ρ13) as [H1 H2]. cbv zeta in H1, H2. rewrite H1, H2.
  repeat split; reflexivity || idtac.
  - destruct (Qle_bool _ 0); [discriminate|].
    destruct (Qle_bool 0 (ρ13 _)) eqn:E; [discriminate|].
    apply Qlt_le_weak, Qnot_le_lt. intros Hc. apply Qle_bool_iff in Hc. congruence.
  - destruct (Qle_bool _ 0); [discriminate|].
    destruct (Qle_bool (ρ13 _) 0) eqn:E; [discriminate|].
    apply Qlt_le_weak, Qnot_le_lt. intros Hc. apply Qle_bool_iff in Hc. congruence.
Qed.

Ltac eqb_lits :=
  repeat match goal with
  | |- context [String.eqb ?a ?b] =>
      let v := eval vm_compute in (String.eqb a b) in
      lazymatch v with
      | true => change (String.eqb a b) with true
      | false => change (String.eqb a b) with false
      end
  end.

Ltac erl_norm :=
  cbn -[upd String.append String.eqb Qle_bool truth of_bool inject_Z Qplus Qmult];
  try change (inject_Z 0) with 0%Q; try change (inject_Z 1) with 1%Q; rewrite ?truth_of_bool;
  unfold upd; cbn -[String.append String.eqb Qle_bool truth of_bool inject_Z Qplus Qmult];
  rewrite ?eqb_app_r; eqb_lits;
  cbn -[String.append String.eqb Qle_bool truth of_bool inject_Z Qplus Qmult].

Theorem count_aPMV_comfort_hours_partition (s : string) (ρ : env) :
  let ρ' := run (count_aPMV_comfort_hours_lines s) ρ in
  let t := (1 * ρ "ZoneTimeStep")%Q in
  (ρ' ("comfhour_" +:+ s), ρ' ("discomfhour_cold_" +:+ s), ρ' ("discomfhour_heat_" +:+ s)) =
    (if negb (Qle_bool (ρ ("aPMV_H_SP_noTol_" +:+ s)) (ρ ("aPMV_" +:+ s))) then (0, t, 0)
     else if negb (Qle_bool (ρ ("aPMV_" +:+ s)) (ρ ("aPMV_C_SP_noTol_" +:+ s))) then (0, 0, t)
     else (t, 0, 0))%Q /\
  ρ' ("occupied_hour_" +:+ s) =
    (if Qle_bool (ρ ("People_Occupant_Count_" +:+ s)) 0 then 0 else t)%Q /\
  ρ' ("discomfhour_" +:+ s) = (ρ' ("discomfhour_cold_" +:+ s) + ρ' ("discomfhour_heat_" +:+ s))%Q /\
  (ρ' ("comfhour_" +:+ s) + ρ' ("discomfhour_" +:+ s) == t)%Q.
Proof.
  cbv zeta. unfold run.
  do 8 (erl_norm;
        try match goal with |- context [Qle_bool ?a ?b] => destruct (Qle_bool a b) end);
  (split; [reflexivity|split; [reflexivity|split; [reflexivity|ring]]]).
Qed.

(* ------------------------------------------------------------------ *)
(** ** Generators re-run on their own output *)

Lemma extends_refl b : extends b b.
Proof. exists []. now rewrite app_nil_r. Qed.

Lemma extends_trans b1 b2 b3 : extends b1 b2 -> extends b2 b3 -> extends b1 b3.
Proof. intros [e1 E1] [e2 E2]. exists (e1 ++ e2)%list. rewrite E2, E1. now rewrite app_assoc. Qed.

Lemma newobj_extends b ty fs : extends b (newobj b ty fs).
Proof. eexists. reflexivity. Qed.

Lemma names_of_extends b b' ty F : extends b b' -> incl (names_of b ty F) (names_of b' ty F).
Proof.
  intros [e E]. unfold names_of, idfobjects, idfobjects_id. rewrite E, List.filter_app, !map_app.
  apply incl_appl, incl_refl.
Qed.

Lemma names_of_newobj b ty fs ty' F :
  names_of (newobj b ty fs) ty' F =
  (names_of b ty' F ++ (if String.eqb (Py.upper ty) (Py.upper ty') then [get (mkObj (Py.upper ty) fs) F] else []))%list.
Proof.
  unfold names_of, idfobjects, idfobjects_id, newobj, newidfobject. cbn [fst objs].
  rewrite List.filter_app, !map_app. f_equal. cbn [List.filter fst snd obj_type].
  now destruct (String.eqb (Py.upper ty) (Py.upper ty')).
Qed.

Lemma in_names_of_newobj b ty fs F n :
  get (mkObj (Py.upper ty) fs) F = n -> In n (names_of (newobj b ty fs) ty F).
Proof. intros H. rewrite names_of_newobj, String.eqb_refl, H. apply in_or_app. right. now left. Qed.

Section GuardedFold.
Context {X : Type} (ty F : string) (nms : X -> list string)
  (step : list string -> Building -> X -> Building).
Hypothesis step_extends : forall L b x, extends b (step L b x).
Hypothesis step_adds : forall L b x n,
  In n (nms x) -> Py.in_list n L = false -> In n (names_of (step L b x) ty F).
Hypothesis step_noop : forall L b x,
  (forall n, In n (nms x) -> Py.in_list n L = true) -> step L b x = b.

Lemma guarded_fold_extends L b xs : extends b (foldl (step L) b xs).
Proof.
  revert b. induction xs as [|x xs IH]; intros b; simpl; [apply extends_refl|].
  eapply extends_trans; [apply step_extends|apply IH].
Qed.

Lemma guarded_fold_cover L b xs :
  incl L (names_of b ty F) ->
  forall x n, In x xs -> In n (nms x) -> In n (names_of (foldl (step L) b xs) ty F).
Proof.
  revert b. induction xs as [|x xs IH]; intros b HL x0 n Hx Hn; [destruct Hx|].
  simpl. assert (HL1 : incl L (names_of (step L b x) ty F)).
  { eapply incl_tran; [exact HL|apply names_of_extends, step_extends]. }
  destruct Hx as [<-|Hx]; [|exact (IH _ HL1 x0 n Hx Hn)].
  apply (names_of_extends _ _ _ _ (guarded_fold_extends L (step L b x) xs)).
  destruct (Py.in_list n L) eqn:E.
  - apply HL1, in_list_In, E.
  - apply step_adds; assumption.
Qed.

Lemma guarded_fold_noop L b xs :
  (forall x n, In x xs -> In n (nms x) -> Py.in_list n L = true) -> foldl (step L) b xs = b.
Proof.
  revert b. induction xs as [|x xs IH]; intros b H; simpl; [reflexivity|].
  rewrite step_noop by (intros n Hn; apply (H x); [now left|exact Hn]).
  apply IH. intros x' n Hx. apply H. now right.
Qed.

Lemma guarded_fold_idempotent b xs :
  let b' := foldl (step (names_of b ty F)) b xs in
  foldl (step (names_of b' ty F)) b' xs = b'.
Proof.
  cbv zeta. apply guarded_fold_noop. intros x n Hx Hn. apply in_list_In.
  apply (guarded_fold_cover _ _ _ (incl_refl _) x n Hx Hn).
Qed.

End GuardedFold.

Lemma foldl_flat_map {A B C} (f : A -> B -> A) (g : C -> list B) (b : A) (l : list C) :
  foldl f b (flat_map g l) = foldl (fun b x => foldl f b (g x)) b l.
Proof. revert b. induction l as [|x l IH]; intros b; simpl; [reflexivity|]. now rewrite foldl_app, IH. Qed.

Lemma foldl_ext {A B} (f g : A -> B -> A) (b : A) (l : list B) :
  (forall a x, f a x = g a x) -> foldl f b l = foldl g b l.
Proof. intros H. revert b. induction l as [|x l IH]; intros b; simpl; [reflexivity|]. now rewrite H, IH. Qed.

Lemma foldl_map' {A B C} (f : A -> B -> A) (h : C -> B) (b : A) (l : list C) :
  foldl f b (map h l) = foldl (fun b x => f b (h x)) b l.
Proof. revert b. induction l as [|x l IH]; intros b; simpl; [reflexivity|]. now rewrite IH. Qed.

Lemma add_apmv_global_variables_fold b suffixes :
  _add_apmv_global_variables b suffixes =
  foldl (new_gv (names_of b "EnergyManagementSystem:GlobalVariable" "Erl_Variable_1_Name")) b (gv_names suffixes).
Proof.
  unfold _add_apmv_global_variables, gv_names. rewrite foldl_app, foldl_flat_map.
  apply foldl_ext. intros b0 p. now rewrite foldl_map'.
Qed.

Lemma new_gv_extends L b x : extends b (new_gv L b x).
Proof. unfold new_gv. destruct (Py.in_list x L); [apply extends_refl|apply newobj_extends]. Qed.

Lemma new_gv_adds L b x n :
  In n [x] -> Py.in_list n L = false -> In n (names_of (new_gv L b x) GV "Erl_Variable_1_Name").
Proof.
  intros [<-|[]] E. unfold new_gv. rewrite E. apply in_names_of_newobj.
  reflexivity.
Qed.

Lemma new_gv_noop L b x : (forall n, In n [x] -> Py.in_list n L = true) -> new_gv L b x = b.
Proof. intros H. unfold new_gv. now rewrite (H x (or_introl eq_refl)). Qed.

Theorem add_apmv_global_variables_idempotent (b : Building) (suffixes : list string) :
  let b' := _add_apmv_global_variables b suffixes in
  extends b b' /\
  (forall n, In n (gv_names suffixes) -> In n (names_of b' GV "Erl_Variable_1_Name")) /\
  _add_apmv_global_variables b' suffixes = b'.
Proof.
  cbv zeta. rewrite (add_apmv_global_variables_fold (_add_apmv_global_variables b suffixes)).
  rewrite add_apmv_global_variables_fold. split; [|split].
  - apply guarded_fold_extends, new_gv_extends.
  - intros n Hn. apply (guarded_fold_cover GV "Erl_Variable_1_Name" (fun x => [x]) new_gv
      new_gv_extends new_gv_adds _ _ _ (incl_refl _) n n Hn (or_introl eq_refl)).
  - apply (guarded_fold_idempotent GV "Erl_Variable_1_Name" (fun x => [x]) new_gv
      new_gv_extends new_gv_adds new_gv_noop).
Qed.

Lemma add_apmv_sensors_fold b ks ss :
  _add_apmv_sensors b ks ss =
  foldM (sensor_opt_step (names_of b SENSOR "Name") ks) b (combine (seq 0 (length ss)) ss).
Proof. reflexivity. Qed.

Lemma foldM_total {A B} (f : Building -> A -> option Building) (g : Building -> B -> Building)
    (h : A -> B) (b b' : Building) (xs : list A) :
  (forall b x b1, In x xs -> f b x = Some b1 -> b1 = g b (h x)) ->
  foldM f b xs = Some b' -> foldl g b (map h xs) = b'.
Proof.
  revert b. induction xs as [|x xs IH]; intros b Hf E; simpl in *.
  - congruence.
  - destruct (f b x) as [b1|] eqn:Ex; [|discriminate]. simpl in E.
    rewrite <- (Hf b x b1 (or_introl eq_refl) Ex).
    apply IH; [intros; apply Hf; [now right|assumption]|exact E].
Qed.

Lemma foldM_noop {A} (f : Building -> A -> option Building) (b : Building) (xs : list A) :
  (forall x, In x xs -> f b x = Some b) -> foldM f b xs = Some b.
Proof.
  induction xs as [|x xs IH]; intros H; simpl; [reflexivity|].
  rewrite (H x (or_introl eq_refl)). simpl. apply IH. intros; apply H; now right.
Qed.

Lemma foldM_some {A} (f : Building -> A -> option Building) (b : Building) (xs : list A) :
  (forall b x, In x xs -> exists b1, f b x = Some b1) -> exists b', foldM f b xs = Some b'.
Proof.
  revert b. induction xs as [|x xs IH]; intros b H; simpl; [eauto|].
  destruct (H b x (or_introl eq_refl)) as [b1 ->]. simpl.
  apply IH. intros; apply H; now right.
Qed.

Lemma map_snd_combine_seq {A} (k : nat) (l : list A) :
  map snd (combine (seq k (length l)) l) = l.
Proof.
  revert k. induction l as [|a l IH]; intros k; simpl; [reflexivity|]. now rewrite IH.
Qed.

Lemma sensor_opt_step_total L ks b x b1 :
  sensor_opt_step L ks b x = Some b1 -> b1 = sensor_step L b (sensor_key_at ks x).
Proof.
  destruct x as [i s]. unfold sensor_opt_step, sensor_step, sensor_key_at. cbn [fst snd].
  destruct (ks !! i) as [sk|]; cbn [default];
  destruct (Py.in_list ("PMV_" +:+ s) L), (Py.in_list ("People_Occupant_Count_" +:+ s) L);
    simpl; congruence.
Qed.

Lemma sensor_opt_step_some L ks b i s :
  (i < length ks)%nat -> exists b1, sensor_opt_step L ks b (i, s) = Some b1.
Proof.
  intros Hi. destruct (lookup_lt_is_Some_2 ks i Hi) as [sk Hsk].
  unfold sensor_opt_step. rewrite Hsk.
  destruct (Py.in_list ("PMV_" +:+ s) L), (Py.in_list ("People_Occupant_Count_" +:+ s) L);
    simpl; eauto.
Qed.

Lemma sensor_opt_step_noop L ks b i s :
  Py.in_list ("PMV_" +:+ s) L = true -> Py.in_list ("People_Occupant_Count_" +:+ s) L = true ->
  sensor_opt_step L ks b (i, s) = Some b.
Proof. intros H1 H2. unfold sensor_opt_step. rewrite H1, H2. reflexivity. Qed.

Lemma sensor_step_extends L b x : extends b (sensor_step L b x).
Proof.
  destruct x as [sk s]. unfold sensor_step.
  destruct (Py.in_list ("PMV_" +:+ s) L), (Py.in_list ("People_Occupant_Count_" +:+ s) L);
    eauto using extends_refl, newobj_extends, extends_trans.
Qed.

Lemma sensor_step_adds L b x n :
  In n (sensor_names x) -> Py.in_list n L = false -> In n (names_of (sensor_step L b x) SENSOR "Name").
Proof.
  destruct x as [sk s]. unfold sensor_names, sensor_step; cbn [snd].
  intros [<-|[<-|[]]] E; rewrite ?E.
  - destruct (Py.in_list ("People_Occupant_Count_" +:+ s) L).
    + apply in_names_of_newobj. reflexivity.
    + eapply names_of_extends; [apply newobj_extends|]. apply in_names_of_newobj. reflexivity.
  - apply in_names_of_newobj. reflexivity.
Qed.

Lemma sensor_step_noop L b x :
  (forall n, In n (sensor_names x) -> Py.in_list n L = true) -> sensor_step L b x = b.
Proof.
  destruct x as [sk s]. intros H. unfold sensor_step.
  rewrite (H ("PMV_" +:+ s)) by (left; reflexivity).
  rewrite (H ("People_Occupant_Count_" +:+ s)) by (right; left; reflexivity). reflexivity.
Qed.

Theorem add_apmv_sensors_idempotent (b : Building) (sensor_keys suffixes : list string) :
  ((length suffixes <= length sensor_keys)%nat ->
     exists b', _add_apmv_sensors b sensor_keys suffixes = Some b') /\
  forall b', _add_apmv_sensors b sensor_keys suffixes = Some b' ->
    extends b b' /\
    (forall s n, In s suffixes -> In n ["PMV_" +:+ s; "People_Occupant_Count_" +:+ s] ->
       In n (names_of b' SENSOR "Name")) /\
    _add_apmv_sensors b' sensor_keys suffixes = Some b'.
Proof.
  split.
  - intros Hlen. rewrite add_apmv_sensors_fold. apply foldM_some.
    intros b0 [i s] Hx. apply sensor_opt_step_some.
    apply in_combine_l, in_seq in Hx. lia.
  - intros b' E. rewrite add_apmv_sensors_fold in E.
    set (L := names_of b SENSOR "Name") in E.
    set (xs := combine (seq 0 (length suffixes)) suffixes) in E.
    assert (Hf : foldl (sensor_step L) b (map (sensor_key_at sensor_keys) xs) = b').
    { apply (foldM_total _ _ _ _ _ _ (fun b0 x b1 _ => sensor_opt_step_total L sensor_keys b0 x b1) E). }
    assert (Hsnd : map snd (map (sensor_key_at sensor_keys) xs) = suffixes).
    { rewrite map_map. apply map_snd_combine_seq. }
    assert (Hcov : forall s n, In s suffixes -> In n ["PMV_" +:+ s; "People_Occupant_Count_" +:+ s] ->
                     In n (names_of b' SENSOR "Name")).
    { intros s n Hs Hn. rewrite <- Hsnd in Hs. apply in_map_iff in Hs as [x [Hxs Hx]].
      rewrite <- Hf. apply (guarded_fold_cover SENSOR "Name" sensor_names sensor_step
        sensor_step_extends sensor_step_adds _ _ _ (incl_refl _) x n Hx).
      unfold sensor_names. now rewrite Hxs. }
    split; [rewrite <- Hf; apply guarded_fold_extends, sensor_step_extends|].
    split; [exact Hcov|].
    rewrite add_apmv_sensors_fold. apply foldM_noop. intros [i s] Hx.
    apply in_combine_r in Hx.
    apply sensor_opt_step_noop; apply in_list_In, (Hcov s); simpl; tauto.
Qed.

Lemma add_apmv_sensors_idempotent_witness :
  (length ["Z1"] <= length ["Z1"])%nat /\
  exists b', _add_apmv_sensors one_zone_building ["Z1"] ["Z1"] = Some b' /\
    extends one_zone_building b' /\ _add_apmv_sensors b' ["Z1"] ["Z1"] = Some b'.
Proof.
  assert (Hl : (length ["Z1"] <= length ["Z1"])%nat) by (simpl; lia).
  split; [exact Hl|].
  destruct (proj1 (add_apmv_sensors_idempotent one_zone_building ["Z1"] ["Z1"]) Hl) as [b' E].
  exists b'. split; [exact E|].
  destruct (proj2 (add_apmv_sensors_idempotent one_zone_building ["Z1"] ["Z1"]) b' E)
    as [H1 [_ H3]].
  split; assumption.
Defined.

(** The length condition cannot be dropped: a suffix without a sensor key
    raises when its sensors are missing. *)
Lemma add_apmv_sensors_missing_key_raises :
  _add_apmv_sensors one_zone_building [] ["Z1"] = None.
Proof. reflexivity. Qed.

Lemma add_apmv_actuators_fold b tds :
  _add_apmv_actuators b tds = foldl (actuator_step (names_of b ACTUATOR "Name")) b (actuator_items tds).
Proof.
  unfold _add_apmv_actuators, actuator_items. rewrite foldl_flat_map.
  apply foldl_ext. intros b0 t. now rewrite foldl_map'.
Qed.

Lemma actuator_step_extends L b x : extends b (actuator_step L b x).
Proof.
  destruct x as [t i]. unfold actuator_step. cbv zeta.
  destruct (Py.in_list _ L); [apply extends_refl|apply newobj_extends].
Qed.

Lemma actuator_step_adds L b x n :
  In n (actuator_names x) -> Py.in_list n L = false -> In n (names_of (actuator_step L b x) ACTUATOR "Name").
Proof.
  destruct x as [t i]. unfold actuator_names, actuator_step; cbn [fst snd]. cbv zeta.
  intros [<-|[]] E. rewrite E. apply in_names_of_newobj. reflexivity.
Qed.

Lemma actuator_step_noop L b x :
  (forall n, In n (actuator_names x) -> Py.in_list n L = true) -> actuator_step L b x = b.
Proof.
  destruct x as [t i]. intros H. unfold actuator_step. cbv zeta.
  now rewrite (H ("PMV_" +:+ i +:+ "_SP_act_" +:+ ems_suffix t) (or_introl eq_refl)).
Qed.

Theorem add_apmv_actuators_idempotent (b : Building) (target_data : list Target) :
  let b' := _add_apmv_actuators b target_data in
  extends b b' /\
  (forall t i, In t target_data -> In i ["H"; "C"] ->
     In ("PMV_" +:+ i +:+ "_SP_act_" +:+ ems_suffix t) (names_of b' ACTUATOR "Name")) /\
  _add_apmv_actuators b' target_data = b'.
Proof.
  cbv zeta. rewrite (add_apmv_actuators_fold (_add_apmv_actuators b target_data)).
  rewrite add_apmv_actuators_fold. split; [|split].
  - apply guarded_fold_extends, actuator_step_extends.
  - intros t i Ht Hi. apply (guarded_fold_cover ACTUATOR "Name" actuator_names actuator_step
      actuator_step_extends actuator_step_adds _ _ _ (incl_refl _) (t, i)); [|now left].
    unfold actuator_items. apply in_flat_map. exists t. split; [exact Ht|]. now apply in_map.
  - apply (guarded_fold_idempotent ACTUATOR "Name" actuator_names actuator_step
      actuator_step_extends actuator_step_adds actuator_step_noop).
Qed.

Lemma add_apmv_pcm_fold b :
  _add_apmv_program_calling_managers b =
  foldl (pcm_step (names_of b PCM "Name")) b (names_of b PROGRAM "Name").
Proof. reflexivity. Qed.

Lemma pcm_step_extends L b x : extends b (pcm_step L b x).
Proof. unfold pcm_step. destruct (Py.in_list x L); [apply extends_refl|apply newobj_extends]. Qed.

Lemma pcm_step_adds L b x n :
  In n [x] -> Py.in_list n L = false -> In n (names_of (pcm_step L b x) PCM "Name").
Proof. intros [<-|[]] E. unfold pcm_step. rewrite E. apply in_names_of_newobj. reflexivity. Qed.

Lemma pcm_step_noop L b x : (forall n, In n [x] -> Py.in_list n L = true) -> pcm_step L b x = b.
Proof. intros H. unfold pcm_step. now rewrite (H x (or_introl eq_refl)). Qed.

Lemma pcm_step_grows L b b0 x :
  grows_by (fun t => String.eqb t "ENERGYMANAGEMENTSYSTEM:PROGRAMCALLINGMANAGER") b b0 ->
  grows_by (fun t => String.eqb t "ENERGYMANAGEMENTSYSTEM:PROGRAMCALLINGMANAGER") b (pcm_step L b0 x).
Proof. intros H. unfold pcm_step. destruct (Py.in_list x L); [exact H|apply newobj_grows; [exact H|reflexivity]]. Qed.

Theorem add_apmv_program_calling_managers_idempotent (b : Building) :
  let b' := _add_apmv_program_calling_managers b in
  names_of b' PROGRAM "Name" = names_of b PROGRAM "Name" /\
  (forall p, In p (names_of b PROGRAM "Name") -> In p (names_of b' PCM "Name")) /\
  _add_apmv_program_calling_managers b' = b'.
Proof.
  cbv zeta.
  assert (Hprog : names_of (_add_apmv_program_calling_managers b) PROGRAM "Name" = names_of b PROGRAM "Name").
  { unfold names_of, idfobjects. f_equal. f_equal.
    apply (idfobjects_id_grows (fun t => String.eqb t "ENERGYMANAGEMENTSYSTEM:PROGRAMCALLINGMANAGER"));
      [|reflexivity].
    rewrite add_apmv_pcm_fold. apply foldl_grows; [apply grows_refl|].
    intros b0 x. apply pcm_step_grows, grows_refl. }
  split; [exact Hprog|split].
  - intros p Hp. rewrite add_apmv_pcm_fold.
    exact (guarded_fold_cover PCM "Name" (fun x => [x]) pcm_step pcm_step_extends pcm_step_adds
             _ _ _ (incl_refl _) p p Hp (or_introl eq_refl)).
  - pose proof (guarded_fold_idempotent PCM "Name" (fun x => [x]) pcm_step
                  pcm_step_extends pcm_step_adds pcm_step_noop b (names_of b PROGRAM "Name")) as G.
    cbv zeta in G. rewrite <- add_apmv_pcm_fold in G.
    rewrite (add_apmv_pcm_fold (_add_apmv_program_calling_managers b)), Hprog. exact G.
Qed.

Lemma add_apmv_programs_fold b suffixes df_arguments cs ce :
  _add_apmv_programs b suffixes df_arguments cs ce =
  foldl (programs_step df_arguments cs ce (names_of b PROGRAM "Name")) b
        (PInputData :: PSeason :: map PSuffix suffixes).
Proof. cbn [foldl]. rewrite foldl_map'. reflexivity. Qed.

Lemma guard_program_extends L b n ls : extends b (guard_program L b n ls).
Proof. unfold guard_program. destruct (Py.in_list n L); [apply extends_refl|apply newobj_extends]. Qed.

Lemma guard_program_adds L b n ls :
  Py.in_list n L = false -> In n (names_of (guard_program L b n ls) PROGRAM "Name").
Proof. intros E. unfold guard_program. rewrite E. apply in_names_of_newobj. reflexivity. Qed.

Lemma guard_program_noop L b n ls : Py.in_list n L = true -> guard_program L b n ls = b.
Proof. intros E. unfold guard_program. now rewrite E. Qed.


Lemma programs_step_extends df cs ce L b it : extends b (programs_step df cs ce L b it).
Proof.
  destruct it as [| |s]; simpl; [apply guard_program_extends|apply guard_program_extends|].
  destruct (List.find _ df); [|apply extends_refl]. cbv zeta.
  eapply extends_trans; [|apply guard_program_extends].
  eapply extends_trans; [|apply guard_program_extends].
  eapply extends_trans; [|apply guard_program_extends].
  apply guard_program_extends.
Qed.

Lemma programs_step_adds df cs ce L b it n :
  In n (program_item_names df it) -> Py.in_list n L = false ->
  In n (names_of (programs_step df cs ce L b it) PROGRAM "Name").
Proof.
  destruct it as [| |s]; simpl.
  - intros [<-|[]] E. now apply guard_program_adds.
  - intros [<-|[]] E. now apply guard_program_adds.
  - destruct (List.find _ df); [|intros []]. cbv zeta.
    intros [<-|[<-|[<-|[<-|[]]]]] E;
      repeat first [ apply guard_program_adds; exact E
                   | eapply names_of_extends; [apply guard_program_extends|] ].
Qed.

Lemma programs_step_noop df cs ce L b it :
  (forall n, In n (program_item_names df it) -> Py.in_list n L = true) ->
  programs_step df cs ce L b it = b.
Proof.
  destruct it as [| |s]; simpl; intros H.
  - apply guard_program_noop, H. now left.
  - apply guard_program_noop, H. now left.
  - destruct (List.find _ df); [|reflexivity]. cbv zeta.
    rewrite !guard_program_noop; [reflexivity|apply H; simpl; tauto..].
Qed.

Theorem add_apmv_programs_idempotent (b : Building) (suffixes : list string)
    (df_arguments : list (Row string)) (cool_start cool_end : Z) :
  let b' := _add_apmv_programs b suffixes df_arguments cool_start cool_end in
  extends b b' /\
  (forall it n, In it (PInputData :: PSeason :: map PSuffix suffixes) ->
     In n (program_item_names df_arguments it) -> In n (names_of b' PROGRAM "Name")) /\
  _add_apmv_programs b' suffixes df_arguments cool_start cool_end = b'.
Proof.
  cbv zeta. rewrite (add_apmv_programs_fold (_add_apmv_programs b suffixes df_arguments cool_start cool_end)).
  rewrite add_apmv_programs_fold. split; [|split].
  - apply guarded_fold_extends, programs_step_extends.
  - intros it n Hit Hn. apply (guarded_fold_cover PROGRAM "Name" (program_item_names df_arguments)
      (programs_step df_arguments cool_start cool_end)
      (programs_step_extends df_arguments cool_start cool_end)
      (programs_step_adds df_arguments cool_start cool_end) _ _ _ (incl_refl _) it n Hit Hn).
  - apply (guarded_fold_idempotent PROGRAM "Name" (program_item_names df_arguments)
      (programs_step df_arguments cool_start cool_end)
      (programs_step_extends df_arguments cool_start cool_end)
      (programs_step_adds df_arguments cool_start cool_end)
      (programs_step_noop df_arguments cool_start cool_end)).
Qed.

(* ------------------------------------------------------------------ *)
(** ** [_update_fanger_object] *)

Lemma find_map_pres {A} (P : A -> bool) (G : A -> A) (l : list A) :
  (forall x, P (G x) = P x) -> List.find P (map G l) = option_map G (List.find P l).
Proof.
  intros HG. induction l as [|x l IH]; simpl; [reflexivity|].
  rewrite HG. destruct (P x); [reflexivity|exact IH].
Qed.

Lemma find_app_none {A} (P : A -> bool) (l1 l2 : list A) :
  List.find P l1 = None -> List.find P (l1 ++ l2) = List.find P l2.
Proof. induction l1 as [|x l1 IH]; simpl; [auto|]. destruct (P x); [discriminate|exact IH]. Qed.

Lemma setattr_length b id f v : length (objs (setattr b id f v)) = length (objs b).
Proof. unfold setattr. simpl. apply length_map. Qed.

Theorem update_fanger_object_links (b : Building) (obj_name zone : string) :
  let b' := _update_fanger_object b obj_name zone in
  let named := fun io : nat * IdfObj => String.eqb (get io.2 "Name") obj_name in
  (exists io, List.find named (idfobjects_id b' FANGER) = Some io /\
     get io.2 "Fanger_Thermal_Comfort_Heating_Schedule_Name" = "PMV_H_SP_" +:+ zone /\
     get io.2 "Fanger_Thermal_Comfort_Cooling_Schedule_Name" = "PMV_C_SP_" +:+ zone) /\
  length (objs b') =
    (length (objs b) + match List.find named (idfobjects_id b FANGER) with
                       | Some _ => 0 | None => 1 end)%nat.
Proof.
  cbv zeta. unfold _update_fanger_object.
  set (P := fun io : nat * IdfObj => String.eqb (get io.2 "Name") obj_name).
  assert (HG : forall fid f v, f <> "Name" -> forall io,
    P (if Nat.eqb io.1 fid then (io.1, mkObj (obj_type io.2) (set_field (obj_fields io.2) f v)) else io) = P io).
  { intros fid f v Hf io. destruct (Nat.eqb io.1 fid); [|reflexivity].
    unfold P, get. cbn [fst snd obj_fields]. rewrite field_opt_set_field.
    apply String.eqb_neq in Hf. now rewrite Hf. }
  fold P. destruct (List.find P (idfobjects_id b FANGER)) as [io|] eqn:E;
    unfold newidfobject; cbv beta iota zeta.
  - split; [|rewrite !setattr_length; lia].
    rewrite !idfobjects_id_setattr, !find_map_pres, E by (apply HG; discriminate).
    eexists. split; [reflexivity|].
    cbn [option_map fst snd obj_fields]. rewrite !Nat.eqb_refl. cbn [fst snd obj_fields].
    unfold get. cbn [obj_fields]. rewrite !field_opt_set_field. split; reflexivity.
  - split; [|rewrite !setattr_length; simpl; rewrite length_app; simpl; lia].
    rewrite !idfobjects_id_setattr, !find_map_pres by (apply HG; discriminate).
    unfold idfobjects_id at 1. cbn [fst snd objs].
    rewrite List.filter_app. fold (idfobjects_id b FANGER).
    rewrite find_app_none by exact E. cbn [List.filter fst snd obj_type].
    rewrite String.eqb_refl. cbn [List.find].
    replace (P (next_id b, mkObj (Py.upper FANGER) [("Name", obj_name)])) with true
      by (unfold P, get; cbn; now rewrite String.eqb_refl).
    eexists. split; [reflexivity|].
    cbn [option_map fst snd obj_fields]. rewrite !Nat.eqb_refl. cbn [fst snd obj_fields].
    unfold get. cbn [obj_fields]. rewrite !field_opt_set_field. split; reflexivity.
Qed.

(* ------------------------------------------------------------------ *)
(** ** [_ensure_infrastructure]: when it cannot raise *)

Lemma safe_refl b : safe b b.
Proof. intros H. split; [exact H|apply incl_refl]. Qed.

Lemma safe_trans b1 b2 b3 : safe b1 b2 -> safe b2 b3 -> safe b1 b3.
Proof.
  intros H12 H23 W1. destruct (H12 W1) as [W2 I2]. destruct (H23 W2) as [W3 I3].
  split; [exact W3|eapply incl_tran; eassumption].
Qed.

Lemma safe_newobj b ty fs : safe b (newobj b ty fs).
Proof.
  intros [ND LT]. unfold wf_ids, newobj, newidfobject, ids in *. cbn [fst objs next_id].
  rewrite map_app. cbn [map fst]. split; [split|].
  - apply List.NoDup_app; [exact ND|constructor; [intros []|constructor]|].
    intros x Hx [<-|[]]. rewrite List.Forall_forall in LT. specialize (LT _ Hx). lia.
  - apply Forall_app. split; [|constructor; [lia|constructor]].
    eapply Forall_impl; [exact LT|]. simpl. lia.
  - apply incl_appl, incl_refl.
Qed.

Lemma ids_setattr b id f v : ids (setattr b id f v) = ids b.
Proof. unfold ids, setattr. simpl. rewrite map_map. apply map_ext. intros io. now destruct (Nat.eqb io.1 id). Qed.

Lemma safe_setattr b id f v : safe b (setattr b id f v).
Proof. intros W. unfold wf_ids in *. rewrite ids_setattr. split; [exact W|apply incl_refl]. Qed.

Lemma safe_foldl {A} (f : Building -> A -> Building) b b0 xs :
  safe b b0 -> (forall b' x, safe b' (f b' x)) -> safe b (foldl f b0 xs).
Proof.
  intros H0 Hf. revert b0 H0. induction xs as [|x xs IH]; intros b0 H0; simpl; [exact H0|].
  apply IH. eapply safe_trans; [exact H0|apply Hf].
Qed.

Lemma safe_update_fanger b n z : safe b (_update_fanger_object b n z).
Proof.
  unfold _update_fanger_object. destruct (List.find _ _); unfold newidfobject; cbv beta iota zeta;
    (eapply safe_trans; [|apply safe_setattr]); (eapply safe_trans; [|apply safe_setattr]);
    [apply safe_refl|apply safe_newobj].
Qed.

Lemma safe_create_tc_thermostat b z : safe b (_create_tc_thermostat b z).
Proof.
  unfold _create_tc_thermostat. cbv zeta.
  eapply safe_trans; [|apply safe_update_fanger]. eapply safe_trans; [|apply safe_newobj].
  destruct (Py.in_list _ _); [apply safe_refl|apply safe_newobj].
Qed.

Lemma safe_ensure_schedules b zs : safe b (ensure_schedules b zs).
Proof.
  unfold ensure_schedules. apply safe_foldl; [apply safe_refl|]. intros b' i.
  apply safe_foldl; [apply safe_refl|]. intros b'' zone. cbv zeta.
  destruct (Py.in_list _ _); [apply safe_refl|apply safe_newobj].
Qed.

Lemma removeidfobject_in b id :
  In id (ids b) -> wf_ids b ->
  exists b', removeidfobject b id = Some b' /\ wf_ids b' /\
    forall i, In i (ids b) -> i <> id -> In i (ids b').
Proof.
  intros Hin [ND LT]. unfold removeidfobject.
  replace (existsb (fun io => Nat.eqb io.1 id) (objs b)) with true.
  2:{ symmetry. apply existsb_exists. unfold ids in Hin. apply in_map_iff in Hin as (io & <- & Hio).
      exists io. split; [exact Hio|apply Nat.eqb_refl]. }
  eexists. split; [reflexivity|]. unfold wf_ids, ids in *. cbn [objs next_id].
  assert (Hf : map fst (List.filter (fun io => negb (Nat.eqb io.1 id)) (objs b)) =
               List.filter (fun i => negb (Nat.eqb i id)) (map fst (objs b))).
  { clear. induction (objs b) as [|io l IH]; simpl; [reflexivity|].
    destruct (negb (Nat.eqb io.1 id)); simpl; now rewrite IH. }
  rewrite Hf. split; [split|].
  - now apply List.NoDup_filter.
  - apply List.Forall_forall. intros i Hi. apply filter_In in Hi as [Hi _].
    rewrite List.Forall_forall in LT. now apply LT.
  - intros i Hi Hne. apply filter_In. split; [exact Hi|]. apply negb_true_iff, Nat.eqb_neq, Hne.
Qed.

Lemma obj_by_id_in b id : In id (ids b) -> exists o, obj_by_id b id = Some o.
Proof.
  intros Hin. unfold obj_by_id. destruct (list_find _ (objs b)) as [[k [j o]]|] eqn:E.
  - now exists o.
  - exfalso. apply list_find_None in E. unfold ids in Hin.
    apply in_map_iff in Hin as (io & Hid & Hio). rewrite Forall_forall in E.
    apply (E io); [now apply list_elem_of_In|exact Hid].
Qed.

Lemma NoDup_fst_unique {A} (l : list (nat * A)) t o1 o2 :
  List.NoDup (map fst l) -> In (t, o1) l -> In (t, o2) l -> o1 = o2.
Proof.
  induction l as [|[i o] l IH]; simpl; [intros _ []|].
  intros ND H1 H2. apply List.NoDup_cons_iff in ND as [Hn ND].
  destruct H1 as [E1|H1], H2 as [E2|H2].
  - congruence.
  - exfalso. injection E1 as -> _. apply Hn. apply in_map_iff. now exists (t, o2).
  - exfalso. injection E2 as -> _. apply Hn. apply in_map_iff. now exists (t, o1).
  - auto.
Qed.

Lemma thermostats_by_zone_spec b ty k t :
  thermostats_by_zone b ty !! k = Some t ->
  exists o, In (t, o) (objs b) /\ obj_type o = Py.upper ty /\
    Py.upper (get o "Zone_or_ZoneList_Name") = k.
Proof.
  unfold thermostats_by_zone.
  assert (G : forall (l : list (nat * IdfObj)) (m : gmap string nat),
    (forall k t, m !! k = Some t -> exists o, In (t, o) (objs b) /\ obj_type o = Py.upper ty /\
                                     Py.upper (get o "Zone_or_ZoneList_Name") = k) ->
    (forall io, In io l -> In io (objs b) /\ obj_type io.2 = Py.upper ty) ->
    forall k t, foldl (fun m io => <[Py.upper (get io.2 "Zone_or_ZoneList_Name") := io.1]> m) m l !! k = Some t ->
      exists o, In (t, o) (objs b) /\ obj_type o = Py.upper ty /\
        Py.upper (get o "Zone_or_ZoneList_Name") = k).
  { induction l as [|io l IH]; intros m Hm Hl; simpl; [exact Hm|].
    apply IH; [|intros io' Hio'; apply Hl; now right].
    intros k' t' Hk. apply lookup_insert_Some in Hk as [[<- <-]|[_ Hk]]; [|now apply Hm].
    destruct (Hl io (or_introl eq_refl)) as [Hin Hty]. exists io.2.
    destruct io as [i o]. simpl in *. auto. }
  apply G.
  - intros k' t' Hk. rewrite lookup_empty in Hk. discriminate.
  - intros io Hio. unfold idfobjects_id in Hio. apply filter_In in Hio as [Hin He].
    split; [exact Hin|]. now apply String.eqb_eq in He.
Qed.

Section EnsureThermostats.
Variables (existing_thermostats existing_tc_thermostats : gmap string nat).
Hypothesis thermostats_inj : forall k1 k2 t,
  existing_thermostats !! k1 = Some t -> existing_thermostats !! k2 = Some t -> k1 = k2.
Hypothesis thermostats_disj : forall k1 k2 t,
  existing_thermostats !! k1 = Some t -> existing_tc_thermostats !! k2 = Some t -> False.

Lemma ensure_thermostats_ok (zs : list string) (b : Building) :
  wf_ids b -> List.NoDup (map Py.upper zs) ->
  (forall z t, In z zs ->
     existing_thermostats !! Py.upper z = Some t \/ existing_tc_thermostats !! Py.upper z = Some t ->
     In t (ids b)) ->
  exists b', foldM (ensure_thermostat existing_thermostats existing_tc_thermostats) b zs = Some b'
             /\ wf_ids b'.
Proof.
  revert b. induction zs as [|z zs IH]; intros b W ND Hin; simpl; [now exists b|].
  apply List.NoDup_cons_iff in ND as [Hz ND].
  assert (Hnext : forall b2, safe b b2 -> wf_ids b2 ->
    (forall z' t, In z' zs ->
       existing_thermostats !! Py.upper z' = Some t \/ existing_tc_thermostats !! Py.upper z' = Some t ->
       In t (ids b)) ->
    exists b', foldM (ensure_thermostat existing_thermostats existing_tc_thermostats) b2 zs = Some b'
               /\ wf_ids b').
  { intros b2 S2 W2 H2. apply IH; [exact W2|exact ND|].
    intros z' t Hz' Ht. apply (proj2 (S2 W)). exact (H2 z' t Hz' Ht). }
  unfold ensure_thermostat. cbv zeta.
  destruct (existing_thermostats !! Py.upper z) as [old|] eqn:E1,
           (existing_tc_thermostats !! Py.upper z) as [tc|] eqn:E2.
  - destruct (obj_by_id_in b tc (Hin z tc (or_introl eq_refl) (or_intror E2))) as [o Ho].
    rewrite Ho. simpl.
    apply Hnext; [| |intros z' t Hz' Ht; exact (Hin z' t (or_intror Hz') Ht)].
    + eapply safe_trans; [|apply safe_update_fanger].
      destruct (String.eqb _ _); [apply safe_refl|].
      eapply safe_trans; apply safe_setattr.
    + apply safe_update_fanger. destruct (String.eqb _ _); [exact W|].
      apply safe_setattr, safe_setattr, W.
  - destruct (removeidfobject_in b old (Hin z old (or_introl eq_refl) (or_introl E1)) W)
      as (br & Hr & Wr & Hkeep).
    rewrite Hr. simpl.
    destruct (safe_create_tc_thermostat br z Wr) as [W2 I2].
    apply IH; [exact W2|exact ND|].
    intros z' t Hz' Ht. apply I2, Hkeep; [exact (Hin z' t (or_intror Hz') Ht)|].
    intros ->. destruct Ht as [Ht|Ht].
    + apply Hz. rewrite (thermostats_inj _ _ _ E1 Ht). now apply in_map.
    + exact (thermostats_disj _ _ _ E1 Ht).
  - destruct (obj_by_id_in b tc (Hin z tc (or_introl eq_refl) (or_intror E2))) as [o Ho].
    rewrite Ho. simpl.
    apply Hnext; [| |intros z' t Hz' Ht; exact (Hin z' t (or_intror Hz') Ht)].
    + eapply safe_trans; [|apply safe_update_fanger].
      destruct (String.eqb _ _); [apply safe_refl|].
      eapply safe_trans; apply safe_setattr.
    + apply safe_update_fanger. destruct (String.eqb _ _); [exact W|].
      apply safe_setattr, safe_setattr, W.
  - apply Hnext; [apply safe_create_tc_thermostat|apply safe_create_tc_thermostat, W|].
    intros z' t Hz' Ht. exact (Hin z' t (or_intror Hz') Ht).
Qed.

End EnsureThermostats.

Theorem ensure_infrastructure_never_raises (b : Building) (unique_zones : list string) :
  wf_ids b -> List.NoDup (map Py.upper unique_zones) ->
  exists b', _ensure_infrastructure b unique_zones = Some b' /\ wf_ids b'.
Proof.
  intros W ND. unfold _ensure_infrastructure. cbv zeta.
  set (b0 := ensure_schedules b unique_zones).
  assert (W0 : wf_ids b0) by exact (proj1 (safe_ensure_schedules b unique_zones W)).
  apply ensure_thermostats_ok; [| |exact W0|exact ND|].
  - intros k1 k2 t H1 H2.
    apply thermostats_by_zone_spec in H1 as (o1 & I1 & _ & <-).
    apply thermostats_by_zone_spec in H2 as (o2 & I2 & _ & <-).
    now rewrite (NoDup_fst_unique _ _ _ _ (proj1 W0) I1 I2).
  - intros k1 k2 t H1 H2.
    apply thermostats_by_zone_spec in H1 as (o1 & I1 & T1 & _).
    apply thermostats_by_zone_spec in H2 as (o2 & I2 & T2 & _).
    rewrite (NoDup_fst_unique _ _ _ _ (proj1 W0) I1 I2), T2 in T1. discriminate.
  - intros z t _ [Ht|Ht]; apply thermostats_by_zone_spec in Ht as (o & I & _);
      apply in_map_iff; now exists (t, o).
Qed.

Lemma wf_ids_of_objs (os : list IdfObj) : wf_ids (of_objs os).
Proof.
  unfold wf_ids, ids, of_objs. cbn [objs next_id].
  assert (E : map fst (zip (seq 0 (length os)) os) = seq 0 (length os)).
  { generalize 0%nat. induction os as [|o os IH]; intros n; simpl; [reflexivity|]. now rewrite IH. }
  rewrite E. split; [apply seq_NoDup|].
  apply List.Forall_forall. intros i Hi. apply in_seq in Hi. lia.
Qed.

Lemma ensure_infrastructure_never_raises_witness :
  wf_ids thermostat_building /\ List.NoDup (map Py.upper ["Z1"; "Z2"]) /\
  exists b', _ensure_infrastructure thermostat_building ["Z1"; "Z2"] = Some b' /\ wf_ids b'.
Proof.
  assert (W : wf_ids thermostat_building) by apply wf_ids_of_objs.
  assert (ND : List.NoDup (map Py.upper ["Z1"; "Z2"])).
  { cbn. constructor; [intros [H|[]]; discriminate|constructor; [intros []|constructor]]. }
  split; [exact W|split; [exact ND|]].
  exact (ensure_infrastructure_never_raises thermostat_building ["Z1"; "Z2"] W ND).
Defined.

(** Two target zones that differ only in case, with a standard thermostat:
    the second iteration removes the already removed thermostat again. *)
Lemma ensure_infrastructure_case_duplicate_raises :
  _ensure_infrastructure thermostat_building ["Z1"; "z1"] = None.
Proof. vm_compute. reflexivity. Qed.

(* ------------------------------------------------------------------ *)
(** ** [_ensure_infrastructure]: the setpoint schedules *)

Lemma filter_map_snd_and (T P : IdfObj -> bool) (l : list (nat * IdfObj)) :
  List.filter P (map snd (List.filter (fun io => T io.2) l)) =
  List.filter (fun o => T o && P o) (map snd l).
Proof.
  induction l as [|[i o] l IH]; simpl; [reflexivity|].
  destruct (T o); simpl; [destruct (P o); simpl; now rewrite IH|exact IH].
Qed.

Lemma pmv_schedules_objs b :
  pmv_schedules b =
  map (fun o => (get o "Name", get o "Field_3")) (List.filter is_pmv_sched (map snd (objs b))).
Proof.
  unfold pmv_schedules, idfobjects, idfobjects_id, is_pmv_sched. f_equal.
  apply (filter_map_snd_and (fun o => String.eqb (obj_type o) (Py.upper "Schedule:Compact"))
                            (fun o => pmv_setpoint_name (get o "Name"))).
Qed.

Lemma pmv_filter_map (G : nat * IdfObj -> nat * IdfObj) (l : list (nat * IdfObj)) :
  (forall io, is_pmv_sched (G io).2 = is_pmv_sched io.2 /\
              get (G io).2 "Name" = get io.2 "Name" /\ get (G io).2 "Field_3" = get io.2 "Field_3") ->
  map (fun o => (get o "Name", get o "Field_3")) (List.filter is_pmv_sched (map snd (map G l))) =
  map (fun o => (get o "Name", get o "Field_3")) (List.filter is_pmv_sched (map snd l)).
Proof.
  intros HG. induction l as [|io l IH]; [reflexivity|]. cbn [map List.filter].
  destruct (HG io) as (E1 & E2 & E3). rewrite E1.
  destruct (is_pmv_sched io.2); cbn [map]; [rewrite E2, E3|]; now rewrite IH.
Qed.

Lemma pmv_filter_drop (P : nat * IdfObj -> bool) (l : list (nat * IdfObj)) :
  (forall io, In io l -> P io = false -> is_pmv_sched io.2 = false) ->
  List.filter is_pmv_sched (map snd (List.filter P l)) = List.filter is_pmv_sched (map snd l).
Proof.
  induction l as [|io l IH]; intros H; [reflexivity|]. cbn [List.filter map].
  destruct (P io) eqn:Ep; cbn [map List.filter].
  - rewrite IH; [reflexivity|]. intros; apply H; [now right|assumption].
  - rewrite (H io (or_introl eq_refl) Ep). apply IH. intros; apply H; [now right|assumption].
Qed.

Lemma keeps_pmv_refl R b : keeps_pmv R b b.
Proof. intros H. split; [exact H|reflexivity]. Qed.

Lemma keeps_pmv_trans R b1 b2 b3 : keeps_pmv R b1 b2 -> keeps_pmv R b2 b3 -> keeps_pmv R b1 b3.
Proof.
  intros K1 K2 H. destruct (K1 H) as [H2 E2]. destruct (K2 H2) as [H3 E3].
  split; [exact H3|congruence].
Qed.

Lemma get_set_field_other t fs f v g :
  f <> g -> get (mkObj t (set_field fs f v)) g = get (mkObj t fs) g.
Proof.
  intros Hfg. unfold get. cbn [obj_fields]. rewrite field_opt_set_field.
  apply String.eqb_neq in Hfg. now rewrite Hfg.
Qed.

Lemma keeps_pmv_setattr R b id f v :
  f <> "Name" -> f <> "Field_3" -> keeps_pmv R b (setattr b id f v).
Proof.
  intros Hn H3. set (G := fun io : nat * IdfObj => if Nat.eqb io.1 id
        then (io.1, mkObj (obj_type io.2) (set_field (obj_fields io.2) f v)) else io).
  assert (HG : forall io, is_pmv_sched (G io).2 = is_pmv_sched io.2 /\
              get (G io).2 "Name" = get io.2 "Name" /\ get (G io).2 "Field_3" = get io.2 "Field_3").
  { intros [i [t fs]]. unfold G. cbn [fst snd obj_type obj_fields].
    destruct (Nat.eqb i id); cbn [snd]; [|auto].
    unfold is_pmv_sched. cbn [obj_type]. rewrite !get_set_field_other by congruence. auto. }
  intros Hf. split.
  - intros io Hio Hr. unfold setattr in Hio. cbn [objs] in Hio.
    apply in_map_iff in Hio as [io0 [Eio Hio0]]. subst io.
    change (is_pmv_sched (G io0).2 = false). destruct (HG io0) as [E _]. rewrite E.
    apply Hf; [exact Hio0|]. change (R (G io0).1) in Hr. unfold G in Hr.
    destruct (Nat.eqb io0.1 id); exact Hr.
  - rewrite !pmv_schedules_objs. unfold setattr. cbn [objs]. exact (pmv_filter_map G _ HG).
Qed.

Lemma keeps_pmv_newobj R b ty fs :
  is_pmv_sched (mkObj (Py.upper ty) fs) = false -> keeps_pmv R b (newobj b ty fs).
Proof.
  intros Hp Hf. unfold newobj, newidfobject. cbn [fst objs]. split.
  - intros io Hio Hr. apply in_app_or in Hio as [Hio|[<-|[]]]; [now apply Hf|exact Hp].
  - rewrite !pmv_schedules_objs. cbn [objs]. rewrite map_app, List.filter_app. cbn [map List.filter snd].
    rewrite Hp, app_nil_r. reflexivity.
Qed.

Lemma keeps_pmv_remove R b id b' :
  R id -> removeidfobject b id = Some b' -> keeps_pmv R b b'.
Proof.
  intros Hr E Hf. unfold removeidfobject in E.
  destruct (existsb _ _); [|discriminate]. injection E as <-. split.
  - intros io Hio Hr'. cbn [objs] in Hio. apply List.filter_In in Hio as [Hio _]. now apply Hf.
  - rewrite !pmv_schedules_objs. cbn [objs]. rewrite pmv_filter_drop; [reflexivity|].
    intros io Hio Hp. apply Hf; [exact Hio|]. destruct (Nat.eqb io.1 id) eqn:Ei; [|discriminate].
    apply Nat.eqb_eq in Ei. now rewrite Ei.
Qed.

Lemma keeps_pmv_update_fanger R b n z : keeps_pmv R b (_update_fanger_object b n z).
Proof.
  unfold _update_fanger_object.
  destruct (List.find _ _) as [io|].
  - cbv beta iota zeta.
    eapply keeps_pmv_trans; apply keeps_pmv_setattr; discriminate.
  - unfold newidfobject. cbv beta iota zeta.
    eapply keeps_pmv_trans; [|apply keeps_pmv_setattr; discriminate].
    eapply keeps_pmv_trans; [|apply keeps_pmv_setattr; discriminate].
    apply (keeps_pmv_newobj R b FANGER [("Name", n)]). reflexivity.
Qed.

Lemma keeps_pmv_create_tc R b z : keeps_pmv R b (_create_tc_thermostat b z).
Proof.
  unfold _create_tc_thermostat. cbv zeta.
  eapply keeps_pmv_trans; [|apply keeps_pmv_update_fanger].
  eapply keeps_pmv_trans; [|apply keeps_pmv_newobj; reflexivity].
  destruct (Py.in_list _ _); [apply keeps_pmv_refl|apply keeps_pmv_newobj; reflexivity].
Qed.

Lemma keeps_pmv_ensure_thermostat (R : nat -> Prop) et ett b z b' :
  (forall k t, et !! k = Some t -> R t) ->
  ensure_thermostat et ett b z = Some b' -> keeps_pmv R b b'.
Proof.
  intros HR E. unfold ensure_thermostat in E. cbv zeta in E.
  destruct (et !! Py.upper z) as [old_t|] eqn:E1, (ett !! Py.upper z) as [tc_t|] eqn:E2.
  - destruct (obj_by_id b tc_t) as [o|]; [|discriminate]. cbn in E. injection E as <-.
    eapply keeps_pmv_trans; [|apply keeps_pmv_update_fanger].
    destruct (String.eqb _ _); [apply keeps_pmv_refl|].
    eapply keeps_pmv_trans; apply keeps_pmv_setattr; discriminate.
  - destruct (removeidfobject b old_t) as [br|] eqn:Er; [|discriminate]. cbn in E. injection E as <-.
    eapply keeps_pmv_trans; [exact (keeps_pmv_remove R b old_t br (HR _ _ E1) Er)|].
    apply keeps_pmv_create_tc.
  - destruct (obj_by_id b tc_t) as [o|]; [|discriminate]. cbn in E. injection E as <-.
    eapply keeps_pmv_trans; [|apply keeps_pmv_update_fanger].
    destruct (String.eqb _ _); [apply keeps_pmv_refl|].
    eapply keeps_pmv_trans; apply keeps_pmv_setattr; discriminate.
  - injection E as <-. apply keeps_pmv_create_tc.
Qed.

Lemma keeps_pmv_foldM {A} R (f : Building -> A -> option Building) b b' xs :
  (forall b x b1, f b x = Some b1 -> keeps_pmv R b b1) ->
  foldM f b xs = Some b' -> keeps_pmv R b b'.
Proof.
  revert b. induction xs as [|x xs IH]; intros b Hf E; simpl in E.
  - injection E as <-. apply keeps_pmv_refl.
  - destruct (f b x) as [b1|] eqn:Ex; [|discriminate]. simpl in E.
    eapply keeps_pmv_trans; [exact (Hf _ _ _ Ex)|exact (IH _ Hf E)].
Qed.

Lemma pmv_schedules_created (ns : list string) :
  Forall (fun n => pmv_setpoint_name n = true) ns ->
  map (fun o => (get o "Name", get o "Field_3")) (List.filter is_pmv_sched (map schedule_obj ns)) =
  map (fun n => (n, "Until: 24:00,1")) ns.
Proof.
  induction 1 as [|n ns Hn _ IH]; [reflexivity|]. cbn [map List.filter].
  assert (E : is_pmv_sched (schedule_obj n) = pmv_setpoint_name n) by reflexivity.
  rewrite E, Hn. cbn [map]. rewrite IH. reflexivity.
Qed.

Lemma pmv_setpoint_names_created (zs : list string) :
  Forall (fun n => pmv_setpoint_name n = true)
    (flat_map (fun i => map (fun z => i +:+ "_" +:+ z) zs) ["PMV_H_SP"; "PMV_C_SP"]).
Proof.
  apply List.Forall_forall. intros n Hn. apply in_flat_map in Hn as [i [Hi Hn]].
  apply in_map_iff in Hn as [z [<- _]].
  destruct Hi as [<-|[<-|[]]]; destruct z; reflexivity.
Qed.

(** C8 (amended): after [_ensure_infrastructure], the [PMV_H_SP_*] and
    [PMV_C_SP_*] schedules of the model are those it had before, unchanged,
    followed, for [i] in [PMV_H_SP], [PMV_C_SP] and then for each zone [z]
    of [unique_zones], by a [Schedule:Compact] named [i_z] unless a
    [Schedule:Compact] of that name existed before the call.  Every one of
    them holds the constant value 1 ([Until: 24:00,1]), heating and cooling
    alike.  The thermostat steps that follow (which create the control-type
    schedules holding 4, create or remove thermostats and create or update
    Fanger objects) leave these setpoint schedules as they are. *)
Theorem ensure_infrastructure_pmv_schedules (b b' : Building) (unique_zones : list string) :
  wf_ids b -> _ensure_infrastructure b unique_zones = Some b' ->
  pmv_schedules b' =
    (pmv_schedules b ++
     map (fun n => (n, "Until: 24:00,1"))
       (List.filter (fun n => negb (Py.in_list n (schedule_names b)))
          (flat_map (fun i => map (fun z => i +:+ "_" +:+ z) unique_zones)
                    ["PMV_H_SP"; "PMV_C_SP"])))%list.
Proof.
  intros W E. unfold _ensure_infrastructure in E. cbv zeta in E.
  set (b0 := ensure_schedules b unique_zones) in E.
  set (et := thermostats_by_zone b0 "ZoneControl:Thermostat") in E.
  set (R := fun t => exists k, et !! k = Some t).
  assert (K : keeps_pmv R b0 b').
  { apply (keeps_pmv_foldM R _ _ _ _ (fun b1 z b2 =>
             keeps_pmv_ensure_thermostat R et _ b1 z b2 (fun k t Hk => ex_intro _ k Hk)) E). }
  assert (F0 : pmv_free R b0).
  { destruct (safe_ensure_schedules b unique_zones W) as [W0 _]. fold b0 in W0.
    intros [t o] Hio [k Hk]. cbn [fst snd] in *.
    apply thermostats_by_zone_spec in Hk as (o' & Hin & Ht & _).
    rewrite (NoDup_fst_unique _ _ _ _ (proj1 W0) Hio Hin).
    unfold is_pmv_sched. rewrite Ht. reflexivity. }
  rewrite (proj2 (K F0)).
  rewrite !pmv_schedules_objs. unfold b0. rewrite ensure_schedules_objects.
  rewrite List.filter_app, map_app. f_equal.
  apply pmv_schedules_created.
  apply List.Forall_forall. intros n Hn. apply List.filter_In in Hn as [Hn _].
  exact (proj1 (List.Forall_forall _ _) (pmv_setpoint_names_created unique_zones) n Hn).
Qed.

Lemma ensure_infrastructure_pmv_schedules_witness :
  wf_ids thermostat_building /\
  exists b', _ensure_infrastructure thermostat_building ["Z1"; "Z2"] = Some b' /\
    pmv_schedules b' =
      [("PMV_H_SP_Z1", "Until: 24:00,1"); ("PMV_H_SP_Z2", "Until: 24:00,1");
       ("PMV_C_SP_Z1", "Until: 24:00,1"); ("PMV_C_SP_Z2", "Until: 24:00,1")].
Proof.
  assert (W : wf_ids thermostat_building) by apply wf_ids_of_objs.
  split; [exact W|].
  destruct (_ensure_infrastructure thermostat_building ["Z1"; "Z2"]) as [b'|] eqn:E;
    [|vm_compute in E; discriminate].
  exists b'. split; [reflexivity|].
  rewrite (ensure_infrastructure_pmv_schedules _ _ _ W E). vm_compute. reflexivity.
Defined.
